(** * The Warp kernel node (omni/warp/nodes/OgnKernel.py)

    A shallow embedding of the OmniGraph node that compiles a user supplied
    Warp kernel and launches it, followed by the properties of its staleness
    tracker, validator, loader and dispatch layer.

    Python objects that are mutated in place ([db], [db.internal_state], the
    file system, [wp.config]) live in one record, [World], threaded through
    a state-and-exception monad [Py]: a raised exception keeps the mutations
    made before it, as in Python.  Everything the node only consumes from its
    collaborators (the Python import machinery, [hashlib], [og], [wp]) is a
    field of the record [Runtime]. *)

From Stdlib Require Import ZArith String Ascii List Bool Lia.
From stdpp Require Import base tactics option list strings pretty gmap sorting.

Local Open Scope Z_scope.
Local Open Scope string_scope.

(** ** Python exceptions and the [Py] monad *)

Module Py.

(** The exception classes the node raises or meets; all of them derive
    from [Exception], so [except Exception] catches every one. *)
Inductive exn : Type :=
| RuntimeError (msg : string)
| AssertionError (msg : string)
| AttributeError (msg : string)
| TypeError (msg : string)
| OSError (msg : string)
| OtherException (cls msg : string).

Inductive outcome (A : Type) : Type :=
| Return (a : A)
| Raise (e : exn).
Arguments Return {A} a.
Arguments Raise {A} e.

Definition is_Return {A} (o : outcome A) : bool :=
  match o with Return _ => true | Raise _ => false end.

Section Monad.
Context {W : Type}.

Definition M (A : Type) : Type := W -> outcome A * W.

Definition ret {A} (a : A) : M A := fun w => (Return a, w).
Definition raise {A} (e : exn) : M A := fun w => (Raise e, w).
Definition bind {A B} (m : M A) (k : A -> M B) : M B :=
  fun w => match m w with
           | (Return a, w') => k a w'
           | (Raise e, w') => (Raise e, w')
           end.
Definition get : M W := fun w => (Return w, w).
Definition modify (f : W -> W) : M unit := fun w => (Return tt, f w).
Definition lift {A} (o : outcome A) : M A := fun w => (o, w).

(** [try: body finally: fin].  The clean-up runs on every exit of
    [body]; an exception of the clean-up replaces the pending one. *)
Definition try_finally {A} (body : M A) (fin : M unit) : M A :=
  fun w => match body w with
           | (r, w') =>
               match fin w' with
               | (Return _, w'') => (r, w'')
               | (Raise e, w'') => (Raise e, w'')
               end
           end.

(** [try: body except Exception: handler else: orelse]. *)
Definition try_except_else {A B} (body : M A) (handler : exn -> M B)
    (orelse : A -> M B) : M B :=
  fun w => match body w with
           | (Return a, w') => orelse a w'
           | (Raise e, w') => handler e w'
           end.

(** [for x in xs: body x], stopping at the first exception. *)
Fixpoint for_each {A} (xs : list A) (body : A -> M unit) : M unit :=
  match xs with
  | [] => ret tt
  | x :: xs' => bind (body x) (fun _ => for_each xs' body)
  end.
End Monad.

Arguments M : clear implicits.

(** The text [traceback.format_exc()] ends with: the class of the
    exception and its message (the stack frames before it are elided). *)
Definition format_exc (e : exn) : string :=
  "Traceback (most recent call last): " +:+
  match e with
  | RuntimeError m => "RuntimeError: " +:+ m
  | AssertionError m => "AssertionError: " +:+ m
  | AttributeError m => "AttributeError: " +:+ m
  | TypeError m => "TypeError: " +:+ m
  | OSError m => "OSError: " +:+ m
  | OtherException c m => c +:+ ": " +:+ m
  end.

End Py.

Import Py.

Declare Scope py_scope.
Delimit Scope py_scope with py.
Notation "'let!' x ':=' c 'in' k" := (Py.bind c (fun x => k))
  (at level 10, x binder, c at level 100, k at level 200) : py_scope.
Notation "'do!' c 'in' k" := (Py.bind c (fun _ => k))
  (at level 10, c at level 100, k at level 200) : py_scope.
Local Open Scope py_scope.

(** ** Strings *)

Definition nl : string := String (ascii_of_nat 10) EmptyString.

(** [s.split(sep)] for a one character separator. *)
Fixpoint split_on (sep : ascii) (s : string) : list string :=
  match s with
  | EmptyString => [EmptyString]
  | String c s' =>
      if Ascii.eqb c sep then EmptyString :: split_on sep s'
      else match split_on sep s' with
           | h :: t => String c h :: t
           | [] => [String c EmptyString]
           end
  end.

(** [name.split(":")[-1]]: the member name of an attribute. *)
Definition base_name (name : string) : string :=
  List.last (split_on ":" name) EmptyString.

(** [sep.join(items)]. *)
Definition join (sep : string) (items : list string) : string :=
  String.concat sep items.

(** [sorted(names)]: strings compare by code point. *)
Definition str_le (a b : string) : Prop := String.leb a b = true.
#[global] Instance str_le_dec a b : Decision (str_le a b).
Proof. unfold str_le. apply _. Defined.
Definition sorted (names : list string) : list string :=
  merge_sort str_le names.

(** ** Data model *)

(** [og.AttributePortType]. *)
Inductive AttributePortType : Type :=
| ATTR_PORT_TYPE_INPUT
| ATTR_PORT_TYPE_OUTPUT
| ATTR_PORT_TYPE_STATE.

#[global] Instance AttributePortType_eq_dec : EqDecision AttributePortType.
Proof. solve_decision. Defined.

(** What the node reads of an [og.Attribute]. *)
Record Attribute : Type := {
  get_name : string;
  get_type_name : string;
  get_port_type : AttributePortType;
  is_dynamic : bool;
  is_optional_for_compute : bool;
}.

(** A type annotation of a member of a generated struct: an instance of
    [wp.array], of which the node reads [dtype] and [ndim], or anything
    else (a scalar, vector or matrix type). *)
Inductive Annotation : Type :=
| wp_array (dtype : string) (ndim : Z)
| wp_scalar (ty : string).

#[global] Instance Annotation_eq_dec : EqDecision Annotation.
Proof. solve_decision. Defined.

Definition isinstance_wp_array (a : Annotation) : bool :=
  match a with wp_array _ _ => true | wp_scalar _ => false end.

(** [__annotations__] of a struct class: a dict in insertion order. *)
Abbreviation Annotations := (list (string * Annotation)).

Definition keys {V} (d : list (string * V)) : list string := map fst d.

(** [d.get(name)]. *)
Fixpoint dict_get {V} (d : list (string * V)) (name : string) : option V :=
  match d with
  | [] => None
  | (k, v) :: d' => if String.eqb k name then Some v else dict_get d' name
  end.

(** What the attribute [compute] of a loaded module can be. *)
Inductive ModuleMember : Type :=
| Kernel            (* an instance of wp.context.Kernel *)
| PlainFunction.    (* any other object, e.g. an undecorated function *)

(** The class behind a [wp.struct]; [cls_annotations] is the entry
    [__annotations__] of its [__dict__], absent when the class body
    declares no member. *)
Record StructClass : Type := { cls_annotations : option Annotations }.

(** [get_annotations(obj)] for a class. *)
Definition get_annotations (obj : StructClass) : Annotations :=
  default [] (cls_annotations obj).

(** A loaded Python module, as far as the node looks into it:
    [hasattr(m, "compute")] and the class of that member, [m.Inputs.cls]
    and [m.Outputs.cls] ([None] when the user code unbound the name), and
    the module option set by [wp.set_module_options]. *)
Record Module : Type := {
  mod_name : string;
  mod_compute : option ModuleMember;
  mod_Inputs : option StructClass;
  mod_Outputs : option StructClass;
  mod_enable_backward : bool;
}.

Record KernelAnnotations : Type := {
  ann_inputs : Annotations;     (* [ATTR_PORT_TYPE_INPUT] *)
  ann_outputs : Annotations;    (* [ATTR_PORT_TYPE_OUTPUT] *)
}.

(** The value of a node attribute: a scalar, or an array of which the node
    sees the address of the data and the items. *)
Record RawArray : Type := { raw_ptr : Z; raw_items : list Z }.
Inductive AttrValue : Type :=
| AttrScalar (v : Z)
| AttrArray (a : RawArray).

(** A [wp.array]; [ptr] is 0 for the null pointer. *)
Record WpArray : Type := { ptr : Z; wp_dtype : string; wp_items : list Z }.

(** The value of a member of a struct instance: a [wp.array], or the
    attribute value as it was read. *)
Inductive StructValue : Type :=
| SValue (v : AttrValue)
| SArray (a : WpArray).

(** An instance of the generated [Inputs] or [Outputs] struct. *)
Abbreviation Struct := (gmap string StructValue).

Record Device : Type := { alias : string; is_cpu : bool; is_cuda : bool }.

(** [og.ExecutionAttributeState]. *)
Inductive ExecutionAttributeState : Type := DISABLED | ENABLED.

(** [class InternalState].  Timestamps are floats in Python; only their
    equality is ever tested, so they are integers here. *)
Record InternalState : Type := {
  _dim_count : option Z;
  _code_provider : option string;
  _code_str : option string;
  _code_file : option string;
  _code_file_timestamp : option Z;
  kernel_module : option Module;
  kernel_annotations : option KernelAnnotations;
  is_valid : bool;
}.

(** [InternalState.__init__]. *)
Definition InternalState_init : InternalState := {|
  _dim_count := None;
  _code_provider := None;
  _code_str := None;
  _code_file := None;
  _code_file_timestamp := None;
  kernel_module := None;
  kernel_annotations := None;
  is_valid := false;
|}.

(** [db.inputs]: the static attributes of the node and the values of the
    dynamic ones, by member name.  [dim1], [dim2], ... are the items of
    [dims]. *)
Record Inputs : Type := {
  device : string;
  codeProvider : string;
  codeStr : string;
  codeFile : string;
  dimCount : Z;
  dims : list Z;
  dyn_inputs : gmap string AttrValue;
}.

(** Ghost events, recorded to count compilations and launches. *)
Inductive Event : Type :=
| EvInitialize                      (* [InternalState.initialize] entered *)
| EvLoad (module_name : string)     (* [load_code_as_module] called *)
| EvLaunch (dim : list Z).          (* [wp.launch] called *)

#[global] Instance Event_eq_dec : EqDecision Event.
Proof. solve_decision. Defined.

(** The mutable objects the node works on.  The fields [db_*] are the
    members of the [OgnKernelDatabase] argument [db]; the others are the
    process state around it. *)
Record World : Type := {
  db_inputs : Inputs;
  db_node_attributes : list Attribute;     (* db.node.get_attributes() *)
  db_state_userAttrDescs : string;
  db_state_userAttrsEvent : Z;
  db_outputs_size : gmap string Z;         (* db.outputs.<name>_size *)
  db_outputs : gmap string AttrValue;      (* db.outputs.<name> *)
  db_outputs_execOut : ExecutionAttributeState;
  db_internal_state : InternalState;
  db_log : list string;                    (* db.log_error, oldest first *)
  db_memory_on_gpu : option bool;
  timeline_is_stopped : bool;
  files : gmap string string;              (* path to content *)
  mtimes : gmap string Z;                  (* os.path.getmtime *)
  wp_config_quiet : bool;
  trace : list Event;                      (* ghost, oldest first *)
}.

Definition set_userAttrsEvent (v : Z) (w : World) : World :=
  {| db_inputs := db_inputs w; db_node_attributes := db_node_attributes w;
     db_state_userAttrDescs := db_state_userAttrDescs w;
     db_state_userAttrsEvent := v;
     db_outputs_size := db_outputs_size w; db_outputs := db_outputs w;
     db_outputs_execOut := db_outputs_execOut w;
     db_internal_state := db_internal_state w; db_log := db_log w;
     db_memory_on_gpu := db_memory_on_gpu w;
     timeline_is_stopped := timeline_is_stopped w; files := files w;
     mtimes := mtimes w; wp_config_quiet := wp_config_quiet w;
     trace := trace w |}.

Definition set_outputs (size : gmap string Z) (vals : gmap string AttrValue)
    (w : World) : World :=
  {| db_inputs := db_inputs w; db_node_attributes := db_node_attributes w;
     db_state_userAttrDescs := db_state_userAttrDescs w;
     db_state_userAttrsEvent := db_state_userAttrsEvent w;
     db_outputs_size := size; db_outputs := vals;
     db_outputs_execOut := db_outputs_execOut w;
     db_internal_state := db_internal_state w; db_log := db_log w;
     db_memory_on_gpu := db_memory_on_gpu w;
     timeline_is_stopped := timeline_is_stopped w; files := files w;
     mtimes := mtimes w; wp_config_quiet := wp_config_quiet w;
     trace := trace w |}.

Definition set_execOut (v : ExecutionAttributeState) (w : World) : World :=
  {| db_inputs := db_inputs w; db_node_attributes := db_node_attributes w;
     db_state_userAttrDescs := db_state_userAttrDescs w;
     db_state_userAttrsEvent := db_state_userAttrsEvent w;
     db_outputs_size := db_outputs_size w; db_outputs := db_outputs w;
     db_outputs_execOut := v;
     db_internal_state := db_internal_state w; db_log := db_log w;
     db_memory_on_gpu := db_memory_on_gpu w;
     timeline_is_stopped := timeline_is_stopped w; files := files w;
     mtimes := mtimes w; wp_config_quiet := wp_config_quiet w;
     trace := trace w |}.

Definition set_internal_state (st : InternalState) (w : World) : World :=
  {| db_inputs := db_inputs w; db_node_attributes := db_node_attributes w;
     db_state_userAttrDescs := db_state_userAttrDescs w;
     db_state_userAttrsEvent := db_state_userAttrsEvent w;
     db_outputs_size := db_outputs_size w; db_outputs := db_outputs w;
     db_outputs_execOut := db_outputs_execOut w;
     db_internal_state := st; db_log := db_log w;
     db_memory_on_gpu := db_memory_on_gpu w;
     timeline_is_stopped := timeline_is_stopped w; files := files w;
     mtimes := mtimes w; wp_config_quiet := wp_config_quiet w;
     trace := trace w |}.

Definition set_log (l : list string) (w : World) : World :=
  {| db_inputs := db_inputs w; db_node_attributes := db_node_attributes w;
     db_state_userAttrDescs := db_state_userAttrDescs w;
     db_state_userAttrsEvent := db_state_userAttrsEvent w;
     db_outputs_size := db_outputs_size w; db_outputs := db_outputs w;
     db_outputs_execOut := db_outputs_execOut w;
     db_internal_state := db_internal_state w; db_log := l;
     db_memory_on_gpu := db_memory_on_gpu w;
     timeline_is_stopped := timeline_is_stopped w; files := files w;
     mtimes := mtimes w; wp_config_quiet := wp_config_quiet w;
     trace := trace w |}.

Definition set_memory_on_gpu (b : bool) (w : World) : World :=
  {| db_inputs := db_inputs w; db_node_attributes := db_node_attributes w;
     db_state_userAttrDescs := db_state_userAttrDescs w;
     db_state_userAttrsEvent := db_state_userAttrsEvent w;
     db_outputs_size := db_outputs_size w; db_outputs := db_outputs w;
     db_outputs_execOut := db_outputs_execOut w;
     db_internal_state := db_internal_state w; db_log := db_log w;
     db_memory_on_gpu := Some b;
     timeline_is_stopped := timeline_is_stopped w; files := files w;
     mtimes := mtimes w; wp_config_quiet := wp_config_quiet w;
     trace := trace w |}.

Definition set_files (f : gmap string string) (w : World) : World :=
  {| db_inputs := db_inputs w; db_node_attributes := db_node_attributes w;
     db_state_userAttrDescs := db_state_userAttrDescs w;
     db_state_userAttrsEvent := db_state_userAttrsEvent w;
     db_outputs_size := db_outputs_size w; db_outputs := db_outputs w;
     db_outputs_execOut := db_outputs_execOut w;
     db_internal_state := db_internal_state w; db_log := db_log w;
     db_memory_on_gpu := db_memory_on_gpu w;
     timeline_is_stopped := timeline_is_stopped w; files := f;
     mtimes := mtimes w; wp_config_quiet := wp_config_quiet w;
     trace := trace w |}.

Definition set_quiet (q : bool) (w : World) : World :=
  {| db_inputs := db_inputs w; db_node_attributes := db_node_attributes w;
     db_state_userAttrDescs := db_state_userAttrDescs w;
     db_state_userAttrsEvent := db_state_userAttrsEvent w;
     db_outputs_size := db_outputs_size w; db_outputs := db_outputs w;
     db_outputs_execOut := db_outputs_execOut w;
     db_internal_state := db_internal_state w; db_log := db_log w;
     db_memory_on_gpu := db_memory_on_gpu w;
     timeline_is_stopped := timeline_is_stopped w; files := files w;
     mtimes := mtimes w; wp_config_quiet := q;
     trace := trace w |}.

Definition set_trace (t : list Event) (w : World) : World :=
  {| db_inputs := db_inputs w; db_node_attributes := db_node_attributes w;
     db_state_userAttrDescs := db_state_userAttrDescs w;
     db_state_userAttrsEvent := db_state_userAttrsEvent w;
     db_outputs_size := db_outputs_size w; db_outputs := db_outputs w;
     db_outputs_execOut := db_outputs_execOut w;
     db_internal_state := db_internal_state w; db_log := db_log w;
     db_memory_on_gpu := db_memory_on_gpu w;
     timeline_is_stopped := timeline_is_stopped w; files := files w;
     mtimes := mtimes w; wp_config_quiet := wp_config_quiet w;
     trace := t |}.

Abbreviation PyM := (Py.M World).

(** [db.log_error(msg)]. *)
Definition log_error (msg : string) : PyM unit :=
  modify (fun w => set_log (db_log w ++ [msg]) w).

Definition record (ev : Event) : PyM unit :=
  modify (fun w => set_trace (trace w ++ [ev]) w).

(** What the node consumes from its collaborators. *)
Record Runtime : Type := {
  (* omni.warp.scripts.kernelnode *)
  ATTR_TO_WARP_TYPE : string -> option string;
  MAX_DIMENSIONS : Z;
  deserialize_user_attribute_descs : string -> outcome unit;
  (* [wp.config.quiet] when the module was imported *)
  QUIET_DEFAULT : bool;
  (* hashlib.blake2b(bytes(code, encoding="utf-8"), digest_size=8).hexdigest();
     a string is its UTF-8 bytes *)
  blake2b_hexdigest : string -> string;
  (* the path tempfile.mkstemp picks, [None] when it fails *)
  mkstemp_path : gmap string string -> option string;
  (* the error of writing a text to a file, [None] when it succeeds *)
  write_error : string -> option exn;
  (* importing a source text as the module of a name *)
  exec_module : string -> string -> outcome Module;
  (* wp.get_device, [None] when it raises *)
  wp_get_device : string -> option Device;
  (* wp.launch(kernel, dim, inputs, outputs): the outputs it leaves *)
  wp_launch : Module -> list Z -> Struct -> Struct -> outcome Struct;
}.

(** ** The node *)

(** Modelled from the spec: the flag enumeration [UserAttributesEvent] of
    [omni.warp.scripts.kernelnode], whose declaration is not part of the
    sources at hand.  The spec gives it the flags none, added and removed;
    the code tests [REMOVED & event] and [event != NONE]. *)
Module UserAttributesEvent.
Definition NONE : Z := 0.
Definition CREATED : Z := 1.
Definition REMOVED : Z := 2.
End UserAttributesEvent.

Definition HEADER_CODE_TEMPLATE (inputs outputs : string) : string :=
  "import warp as wp" +:+ nl +:+
  nl +:+
  "@wp.struct" +:+ nl +:+
  "class Inputs:" +:+ nl +:+
  inputs +:+ nl +:+
  "    pass" +:+ nl +:+
  nl +:+
  "@wp.struct" +:+ nl +:+
  "class Outputs:" +:+ nl +:+
  outputs +:+ nl +:+
  "    pass" +:+ nl.

(** [params.setdefault(port_type, []).append(item)]. *)
Fixpoint setdefault_append {A} (params : list (AttributePortType * list A))
    (port_type : AttributePortType) (item : A)
    : list (AttributePortType * list A) :=
  match params with
  | [] => [(port_type, [item])]
  | (k, items) :: rest =>
      if decide (k = port_type) then (k, (items ++ [item])%list) :: rest
      else (k, items) :: setdefault_append rest port_type item
  end.

Fixpoint params_get {A} (params : list (AttributePortType * A))
    (port_type : AttributePortType) : option A :=
  match params with
  | [] => None
  | (k, v) :: rest =>
      if decide (k = port_type) then Some v else params_get rest port_type
  end.

Section Node.

Context (rt : Runtime).

(** The first loop of [generate_header_code]. *)
Fixpoint collect_params (attrs : list Attribute)
    (params : list (AttributePortType * list (string * string)))
    : outcome (list (AttributePortType * list (string * string))) :=
  match attrs with
  | [] => Return params
  | attr :: rest =>
      let attr_type := get_type_name attr in
      match ATTR_TO_WARP_TYPE rt attr_type with
      | None =>
          Raise (RuntimeError
                   ("Unsupported node attribute type '" +:+ attr_type +:+ "'."))
      | Some warp_type =>
          collect_params rest
            (setdefault_append params (get_port_type attr)
               (base_name (get_name attr), warp_type))
      end
  end.

Definition member_line (x : string * string) : string :=
  "    " +:+ fst x +:+ ": " +:+ snd x.

Definition generate_header_code (attrs : list Attribute) : outcome string :=
  match collect_params attrs [] with
  | Raise e => Raise e
  | Return params =>
      let members :=
        map (fun '(port_type, items) =>
               (port_type, join nl (map member_line items))) params in
      Return (HEADER_CODE_TEMPLATE
                (default "" (params_get members ATTR_PORT_TYPE_INPUT))
                (default "" (params_get members ATTR_PORT_TYPE_OUTPUT)))
  end.

Definition get_user_code : PyM string :=
  let! db := get in
  let code_provider := codeProvider (db_inputs db) in
  if String.eqb code_provider "embedded" then
    ret (codeStr (db_inputs db))
  else if String.eqb code_provider "file" then
    match files db !! codeFile (db_inputs db) with
    | Some text => ret text
    | None => raise (OSError ("No such file: " +:+ codeFile (db_inputs db)))
    end
  else
    raise (AssertionError
             ("Unexpected code provider '" +:+ code_provider +:+ "'.")).

(** [tempfile.mkstemp(suffix=".py")]: a new, empty file. *)
Definition mkstemp : PyM string :=
  let! w := get in
  match mkstemp_path rt (files w) with
  | None => raise (OSError "mkstemp")
  | Some file_path =>
      do! modify (set_files (<[file_path := ""]> (files w))) in
      ret file_path
  end.

(** [with os.fdopen(file, "w") as f: f.write(code)]. *)
Definition write_file (file_path code : string) : PyM unit :=
  match write_error rt code with
  | Some e => raise e
  | None => modify (fun w => set_files (<[file_path := code]> (files w)) w)
  end.

(** [spec_from_file_location], [module_from_spec] and [exec_module]:
    the file is read and its text imported. *)
Definition import_file (name file_path : string) : PyM Module :=
  let! w := get in
  match files w !! file_path with
  | None => raise (OSError ("No such file: " +:+ file_path))
  | Some source => lift (exec_module rt source name)
  end.

(** [os.remove(file_path)]. *)
Definition os_remove (file_path : string) : PyM unit :=
  let! w := get in
  match files w !! file_path with
  | None => raise (OSError ("No such file: " +:+ file_path))
  | Some _ => modify (set_files (delete file_path (files w)))
  end.

Definition load_code_as_module (code name : string) : PyM Module :=
  do! record (EvLoad name) in
  let! file_path := mkstemp in
  try_finally
    (do! write_file file_path code in
     import_file name file_path)
    (os_remove file_path).

(** [os.path.getmtime(path)]. *)
Definition getmtime (w : World) (path : string) : outcome Z :=
  match mtimes w !! path with
  | Some t => Return t
  | None => Raise (OSError ("No such file: " +:+ path))
  end.

(** [InternalState.needs_initialization]; it reads and never writes. *)
Definition needs_initialization (self : InternalState) (db : World)
    (check_file_modified_time : bool) : outcome bool :=
  if (if is_valid self then
        bool_decide (kernel_module self = None)
        || bool_decide (kernel_annotations self = None)
        || negb (Z.eqb (Z.land UserAttributesEvent.REMOVED
                               (db_state_userAttrsEvent db)) 0)
      else
        negb (Z.eqb (db_state_userAttrsEvent db) UserAttributesEvent.NONE))
  then Return true
  else if negb (bool_decide (_dim_count self = Some (dimCount (db_inputs db))))
  then Return true
  else if negb (bool_decide
                  (_code_provider self = Some (codeProvider (db_inputs db))))
  then Return true
  else if bool_decide (_code_provider self = Some "embedded") then
    if negb (bool_decide (_code_str self = Some (codeStr (db_inputs db))))
    then Return true
    else Return false
  else if bool_decide (_code_provider self = Some "file") then
    if negb (bool_decide (_code_file self = Some (codeFile (db_inputs db))))
    then Return true
    else if check_file_modified_time then
      match _code_file self with
      | None => Raise (TypeError "stat: path should be string, not NoneType")
      | Some path =>
          match getmtime db path with
          | Raise e => Raise e
          | Return t =>
              if negb (bool_decide (_code_file_timestamp self = Some t))
              then Return true
              else Return false
          end
      end
    else Return false
  else
    Raise (AssertionError
             ("Unexpected code provider '"
              +:+ default "None" (_code_provider self) +:+ "'.")).

(** The first four assignments of [initialize]: the snapshot of the
    attribute values the staleness check compares. *)
Definition cache_attribute_values (self : InternalState) (i : Inputs)
    : InternalState :=
  {| _dim_count := Some (dimCount i);
     _code_provider := Some (codeProvider i);
     _code_str := Some (codeStr i);
     _code_file := Some (codeFile i);
     _code_file_timestamp := _code_file_timestamp self;
     kernel_module := kernel_module self;
     kernel_annotations := kernel_annotations self;
     is_valid := is_valid self |}.

(** The last two assignments of [initialize]. *)
Definition store_public_members (self : InternalState) (m : Module)
    (a : KernelAnnotations) : InternalState :=
  {| _dim_count := _dim_count self;
     _code_provider := _code_provider self;
     _code_str := _code_str self;
     _code_file := _code_file self;
     _code_file_timestamp := _code_file_timestamp self;
     kernel_module := Some m;
     kernel_annotations := Some a;
     is_valid := is_valid self |}.

Definition set_is_valid (b : bool) (self : InternalState) : InternalState :=
  {| _dim_count := _dim_count self;
     _code_provider := _code_provider self;
     _code_str := _code_str self;
     _code_file := _code_file self;
     _code_file_timestamp := _code_file_timestamp self;
     kernel_module := kernel_module self;
     kernel_annotations := kernel_annotations self;
     is_valid := b |}.

(** [kernel_module.<name>.cls]. *)
Definition struct_cls (name : string) (member : option StructClass)
    : outcome StructClass :=
  match member with
  | Some c => Return c
  | None => Raise (AttributeError ("module has no attribute '" +:+ name +:+ "'"))
  end.

(** [kernel_annotations.items()]. *)
Definition annotation_items (a : KernelAnnotations)
    : list (AttributePortType * Annotations) :=
  [(ATTR_PORT_TYPE_INPUT, ann_inputs a); (ATTR_PORT_TYPE_OUTPUT, ann_outputs a)].

(** The member names of the attributes of a port type:
    [x.get_name().split(":")[-1] for x in attrs if x.get_port_type() == port_type]. *)
Definition attribute_members (attrs : list Attribute)
    (port_type : AttributePortType) : list string :=
  map (fun x => base_name (get_name x))
      (filter (fun x => get_port_type x = port_type) attrs).

(** The condition of the [assert] of [initialize]. *)
Definition annotations_match_attributes (attrs : list Attribute)
    (a : KernelAnnotations) : bool :=
  forallb (fun '(port_type, annotations) =>
             bool_decide (sorted (keys annotations)
                          = sorted (attribute_members attrs port_type)))
          (annotation_items a).

(** [tuple(k for k, v in outputs.items() if not isinstance(v, wp.array))]. *)
Definition invalid_output_attrs (outputs : Annotations) : list string :=
  keys (filter (fun kv => isinstance_wp_array (snd kv) = false) outputs).

Definition MSG_NO_COMPUTE : string :=
  "The code must define a kernel function named 'compute'.".
Definition MSG_NOT_A_KERNEL : string :=
  "The 'compute' function must be decorated with '@wp.kernel'.".
Definition MSG_INVALID_OUTPUTS (invalid_attrs : list string) : string :=
  "Output attributes are required to be arrays but "
  +:+ "the following attributes are not: "
  +:+ join ", " invalid_attrs +:+ ".".

(** [wp.set_module_options({"enable_backward": False}, module=m)]. *)
Definition disable_backward (m : Module) : Module :=
  {| mod_name := mod_name m; mod_compute := mod_compute m;
     mod_Inputs := mod_Inputs m; mod_Outputs := mod_Outputs m;
     mod_enable_backward := false |}.

(** The part of [initialize] after the module is loaded: validation and
    the storing of the public members. *)
Definition validate_and_store (attrs : list Attribute)
    (kernel_module : Module) : PyM bool :=
  match mod_compute kernel_module with
  | None => do! log_error MSG_NO_COMPUTE in ret false
  | Some PlainFunction => do! log_error MSG_NOT_A_KERNEL in ret false
  | Some Kernel =>
      let! inputs_cls := lift (struct_cls "Inputs" (mod_Inputs kernel_module)) in
      let! outputs_cls := lift (struct_cls "Outputs" (mod_Outputs kernel_module)) in
      let kernel_annotations :=
        {| ann_inputs := get_annotations inputs_cls;
           ann_outputs := get_annotations outputs_cls |} in
      if negb (annotations_match_attributes attrs kernel_annotations) then
        raise (AssertionError "")
      else
        let invalid_attrs :=
          invalid_output_attrs (ann_outputs kernel_annotations) in
        if negb (bool_decide (invalid_attrs = [])) then
          do! log_error (MSG_INVALID_OUTPUTS invalid_attrs) in ret false
        else
          do! modify (fun db =>
                set_internal_state
                  (store_public_members (db_internal_state db)
                     (disable_backward kernel_module) kernel_annotations)
                  db) in
          ret true
  end.

(** The full text handed to the loader, and the name of its module. *)
Definition full_code (header_code user_code : string) : string :=
  header_code +:+ nl +:+ user_code.

Definition module_name (code : string) : string :=
  "warp-kernelnode-" +:+ blake2b_hexdigest rt code.

(** The first half of [InternalState.initialize], on
    [db.internal_state]: the snapshot, the code and the loading of its
    module.  It returns the dynamic attributes with the module. *)
Definition compile_kernel_module : PyM (list Attribute * Module) :=
  do! record EvInitialize in
  do! modify (fun db =>
        set_internal_state
          (cache_attribute_values (db_internal_state db) (db_inputs db)) db) in
  let! db := get in
  let attrs := filter (fun x => is_dynamic x = true) (db_node_attributes db) in
  let! attr_descs :=
    lift (deserialize_user_attribute_descs rt (db_state_userAttrDescs db)) in
  let! header_code := lift (generate_header_code attrs) in
  let! user_code := get_user_code in
  let code := full_code header_code user_code in
  let! kernel_module := load_code_as_module code (module_name code) in
  ret (attrs, kernel_module).

(** [InternalState.initialize]. *)
Definition initialize : PyM bool :=
  let! loaded := compile_kernel_module in
  validate_and_store (fst loaded) (snd loaded).

(** *** Binding and dispatch *)

(** [annotation.dtype]. *)
Definition annotation_dtype (a : Annotation) : outcome string :=
  match a with
  | wp_array dtype _ => Return dtype
  | wp_scalar ty => Raise (AttributeError ("'" +:+ ty +:+ "' has no attribute 'dtype'"))
  end.

(** [wp.array(value, dtype=dtype, owner=False)] and
    [omni.warp.from_omni_graph(value, dtype=dtype)]: both wrap the memory
    of the attribute value without copying it. *)
Definition wrap_array (value : AttrValue) (dtype : string) : outcome WpArray :=
  match value with
  | AttrArray a =>
      Return {| ptr := raw_ptr a; wp_dtype := dtype; wp_items := raw_items a |}
  | AttrScalar _ => Raise (TypeError "the value is not an array")
  end.

Definition cast_array_to_warp_type (value : AttrValue)
    (warp_annotation : Annotation) (device : Device) : outcome WpArray :=
  if is_cpu device then
    match annotation_dtype warp_annotation with
    | Return dtype => wrap_array value dtype
    | Raise e => Raise e
    end
  else if is_cuda device then
    match annotation_dtype warp_annotation with
    | Return dtype => wrap_array value dtype
    | Raise e => Raise e
    end
  else Raise (AssertionError ("Unexpected device '" +:+ alias device +:+ "'.")).

Definition are_array_annotations_equal (annotation_1 annotation_2 : Annotation)
    : outcome bool :=
  match annotation_1, annotation_2 with
  | wp_array dtype_1 ndim_1, wp_array dtype_2 ndim_2 =>
      Return (String.eqb dtype_1 dtype_2 && Z.eqb ndim_1 ndim_2)
  | _, _ => Raise (AssertionError "")
  end.

(** [functools.reduce(operator.mul, dims)]. *)
Definition reduce_mul (dims : list Z) : outcome Z :=
  match dims with
  | [] => Raise (TypeError "reduce() of empty iterable with no initial value")
  | d :: rest => Return (fold_left Z.mul rest d)
  end.

(** [len(getattr(inputs, name))]. *)
Definition struct_len (inputs : Struct) (name : string) : outcome Z :=
  match inputs !! name with
  | Some (SArray a) => Return (Z.of_nat (length (wp_items a)))
  | Some (SValue (AttrArray a)) => Return (Z.of_nat (length (raw_items a)))
  | Some (SValue (AttrScalar _)) => Raise (TypeError "object has no len()")
  | None => Raise (AttributeError name)
  end.

(** [module.Inputs()] and [module.Outputs()]: a fresh instance. *)
Definition new_struct (name : string) (module : option Module)
    (member : Module -> option StructClass) : outcome Struct :=
  match module with
  | None => Raise (AttributeError ("'NoneType' object has no attribute '" +:+ name +:+ "'"))
  | Some m =>
      match member m with
      | None => Raise (AttributeError ("module has no attribute '" +:+ name +:+ "'"))
      | Some _ => Return ∅
      end
  end.

(** The first loop of [get_kernel_args]. *)
Fixpoint bind_inputs (device : Device) (items : Annotations) (inputs : Struct)
    : PyM Struct :=
  match items with
  | [] => ret inputs
  | (name, warp_annotation) :: rest =>
      let! db := get in
      match dyn_inputs (db_inputs db) !! name with
      | None => raise (AttributeError name)
      | Some value =>
          let! value :=
            (if isinstance_wp_array warp_annotation then
               match cast_array_to_warp_type value warp_annotation device with
               | Return a => ret (SArray a)
               | Raise e => raise e
               end
             else ret (SValue value)) in
          bind_inputs device rest (<[name := value]> inputs)
      end
  end.

(** The size of the array to allocate for an output member. *)
Definition output_size (input_annotations : Annotations) (inputs : Struct)
    (dims : list Z) (name : string) (warp_annotation : Annotation)
    : outcome Z :=
  match dict_get input_annotations name with
  | Some (wp_array dtype ndim) =>
      match are_array_annotations_equal warp_annotation (wp_array dtype ndim) with
      | Raise e => Raise e
      | Return true => struct_len inputs name
      | Return false => reduce_mul dims
      end
  | _ => reduce_mul dims
  end.

(** [setattr(db.outputs, "{}_size".format(name), size)]: the host
    resizes the array of the attribute. *)
Definition set_output_size (name : string) (size : Z) : PyM unit :=
  let! db := get in
  match db_outputs db !! name with
  | Some (AttrArray a) =>
      modify (set_outputs
                (<[name := size]> (db_outputs_size db))
                (<[name := AttrArray
                            {| raw_ptr := raw_ptr a;
                               raw_items := resize (Z.to_nat size) 0 (raw_items a) |}]>
                   (db_outputs db)))
  | _ => raise (AttributeError (name +:+ "_size"))
  end.

(** The second loop of [get_kernel_args]. *)
Fixpoint bind_outputs (device : Device) (input_annotations : Annotations)
    (inputs : Struct) (dims : list Z) (items : Annotations) (outputs : Struct)
    : PyM Struct :=
  match items with
  | [] => ret outputs
  | (name, warp_annotation) :: rest =>
      if negb (isinstance_wp_array warp_annotation) then
        raise (AssertionError "")
      else
        let! size :=
          lift (output_size input_annotations inputs dims name warp_annotation) in
        do! set_output_size name size in
        let! db := get in
        match db_outputs db !! name with
        | None => raise (AttributeError name)
        | Some value =>
            let! value :=
              lift (cast_array_to_warp_type value warp_annotation device) in
            bind_outputs device input_annotations inputs dims rest
              (<[name := SArray value]> outputs)
        end
  end.

Definition get_kernel_args (module : option Module)
    (annotations : KernelAnnotations) (dims : list Z) (device : Device)
    : PyM (Struct * Struct) :=
  let! inputs := lift (new_struct "Inputs" module mod_Inputs) in
  let! inputs := bind_inputs device (ann_inputs annotations) inputs in
  let! outputs := lift (new_struct "Outputs" module mod_Outputs) in
  let! outputs :=
    bind_outputs device (ann_inputs annotations) inputs dims
      (ann_outputs annotations) outputs in
  ret (inputs, outputs).

(** The loop of [write_output_attrs]. *)
Fixpoint write_outputs (items : Annotations) (outputs : Struct) : PyM unit :=
  match items with
  | [] => ret tt
  | (name, warp_annotation) :: rest =>
      if negb (isinstance_wp_array warp_annotation) then
        raise (AssertionError "")
      else
        match outputs !! name with
        | None => raise (AttributeError name)
        | Some value =>
            let raw :=
              match value with
              | SArray a => AttrArray {| raw_ptr := ptr a; raw_items := wp_items a |}
              | SValue v => v
              end in
            do! modify (fun db =>
                  set_outputs (db_outputs_size db)
                    (<[name := raw]> (db_outputs db)) db) in
            write_outputs rest outputs
        end
  end.

Definition write_output_attrs (annotations : KernelAnnotations)
    (outputs : Struct) (device : Device) : PyM unit :=
  if is_cuda device then ret tt
  else write_outputs (ann_outputs annotations) outputs.

(** [og.Controller.attribute(path, db.node)]. *)
Definition Controller_attribute (path : string) (db : World)
    : outcome Attribute :=
  match find (fun a => String.eqb (get_name a) path) (db_node_attributes db) with
  | Some attr => Return attr
  | None => Raise (OtherException "OmniGraphError" ("no attribute '" +:+ path +:+ "'"))
  end.

Definition MSG_EMPTY_INPUT (attr_name : string) : string :=
  "Empty value for non-optional attribute 'inputs:" +:+ attr_name +:+ "'.".

(** The body of the loop of [compute] over the input annotations;
    [not value.ptr] holds of the null pointer. *)
Definition check_input (inputs : Struct) (attr_name : string) : PyM unit :=
  match inputs !! attr_name with
  | None => raise (AttributeError attr_name)
  | Some (SValue _) => ret tt
  | Some (SArray value) =>
      let! db := get in
      let! attr := lift (Controller_attribute ("inputs:" +:+ attr_name) db) in
      if negb (is_optional_for_compute attr) && Z.eqb (ptr value) 0 then
        raise (RuntimeError (MSG_EMPTY_INPUT attr_name))
      else ret tt
  end.

(** [tuple(max(getattr(db.inputs, "dim{}".format(i + 1)), 0) for i in range(dim_count))]. *)
Fixpoint read_dims (i : Inputs) (indices : list nat) : outcome (list Z) :=
  match indices with
  | [] => Return []
  | n :: rest =>
      match dims i !! n with
      | None => Raise (AttributeError ("dim" +:+ pretty (S n)))
      | Some d =>
          match read_dims i rest with
          | Return ds => Return (Z.max d 0 :: ds)
          | Raise e => Raise e
          end
      end
  end.

(** [db.internal_state.kernel_annotations[port_type]]. *)
Definition state_annotations (db : World) : outcome KernelAnnotations :=
  match kernel_annotations (db_internal_state db) with
  | Some a => Return a
  | None => Raise (TypeError "'NoneType' object is not subscriptable")
  end.

(** [wp.launch(kernel_module.compute, dim=dims, inputs=[inputs], outputs=[outputs])]. *)
Definition launch (dims : list Z) (inputs outputs : Struct) : PyM Struct :=
  do! record (EvLaunch dims) in
  let! db := get in
  match kernel_module (db_internal_state db) with
  | None => raise (AttributeError "'NoneType' object has no attribute 'compute'")
  | Some m => lift (wp_launch rt m dims inputs outputs)
  end.

(** Everything [compute] does once the internal state is initialized. *)
Definition bind_and_dispatch (device : Device) : PyM unit :=
  let! db := get in
  let! annotations := lift (state_annotations db) in
  if bool_decide (ann_outputs annotations = []) then ret tt
  else
    let dim_count :=
      Z.min (Z.max (dimCount (db_inputs db)) 1) (MAX_DIMENSIONS rt) in
    let! dims := lift (read_dims (db_inputs db) (seq 0 (Z.to_nat dim_count))) in
    let! args :=
      get_kernel_args (kernel_module (db_internal_state db)) annotations
        dims device in
    let '(inputs, outputs) := args in
    do! for_each (keys (ann_inputs annotations)) (check_input inputs) in
    let! outputs := launch dims inputs outputs in
    write_output_attrs annotations outputs device.

(** The module level function [compute(db, device)]. *)
Definition compute (device : Device) : PyM unit :=
  do! modify (set_memory_on_gpu (is_cuda device)) in
  let! db := get in
  let! stale :=
    lift (needs_initialization (db_internal_state db) db (timeline_is_stopped db)) in
  if stale : bool then
    let! ok := initialize in
    if ok : bool then
      do! modify (fun db =>
            set_internal_state (set_is_valid true (db_internal_state db)) db) in
      bind_and_dispatch device
    else ret tt
  else bind_and_dispatch device.

(** [wp.get_device(db.inputs.device)] with its fall back to ["cuda:0"];
    the second call is outside of any [try]. *)
Definition resolve_device (db : World) : outcome Device :=
  match wp_get_device rt (device (db_inputs db)) with
  | Some d => Return d
  | None =>
      match wp_get_device rt "cuda:0" with
      | Some d => Return d
      | None => Raise (RuntimeError "no device 'cuda:0'")
      end
  end.

(** The handler of [OgnKernel.compute]; it ends with [return]. *)
Definition on_exception (e : exn) : PyM unit :=
  do! modify (fun db =>
        set_internal_state (set_is_valid false (db_internal_state db)) db) in
  do! log_error (format_exc e) in
  modify (set_quiet true).

(** What [OgnKernel.compute] does when no exception was caught: the
    [else] clause and the statements after the [try]. *)
Definition on_success : PyM unit :=
  do! modify (set_quiet (QUIET_DEFAULT rt)) in
  do! modify (set_userAttrsEvent UserAttributesEvent.NONE) in
  modify (set_execOut ENABLED).

(** The static method [OgnKernel.compute(db)]; entering and leaving
    [wp.ScopedDevice(device)] leaves the world as it is. *)
Definition OgnKernel_compute : PyM unit :=
  let! db := get in
  let! device := lift (resolve_device db) in
  try_except_else (compute device) on_exception (fun _ => on_success).

End Node.

(** ** A concrete node

    A node with one dynamic input [a] and one dynamic output [b], both
    arrays of floats, and a runtime that knows the few source texts used
    below.  The statements on concrete inputs run on it. *)

Module Demo.

Definition attr_a : Attribute :=
  {| get_name := "inputs:a"; get_type_name := "float[]";
     get_port_type := ATTR_PORT_TYPE_INPUT; is_dynamic := true;
     is_optional_for_compute := false |}.
Definition attr_b : Attribute :=
  {| get_name := "outputs:b"; get_type_name := "float[]";
     get_port_type := ATTR_PORT_TYPE_OUTPUT; is_dynamic := true;
     is_optional_for_compute := false |}.
Definition attr_c : Attribute :=
  {| get_name := "outputs:c"; get_type_name := "float";
     get_port_type := ATTR_PORT_TYPE_OUTPUT; is_dynamic := true;
     is_optional_for_compute := false |}.
Definition attr_d : Attribute :=
  {| get_name := "outputs:d"; get_type_name := "int";
     get_port_type := ATTR_PORT_TYPE_OUTPUT; is_dynamic := true;
     is_optional_for_compute := false |}.
Definition attr_codeStr : Attribute :=
  {| get_name := "inputs:codeStr"; get_type_name := "string";
     get_port_type := ATTR_PORT_TYPE_INPUT; is_dynamic := false;
     is_optional_for_compute := false |}.

Definition type_table (attr_type : string) : option string :=
  if String.eqb attr_type "float[]" then Some "wp.array(dtype=wp.float32)"
  else if String.eqb attr_type "float" then Some "wp.float32"
  else if String.eqb attr_type "int" then Some "wp.int32"
  else None.

Definition float_array : Annotation := wp_array "wp.float32" 1.

Definition good_code : string :=
  "@wp.kernel" +:+ nl +:+
  "def compute(inputs: Inputs, outputs: Outputs):" +:+ nl +:+
  "    i = wp.tid()" +:+ nl +:+
  "    outputs.b[i] = inputs.a[i] * 2.0" +:+ nl.
Definition edited_code : string :=
  "@wp.kernel" +:+ nl +:+
  "def run(inputs: Inputs, outputs: Outputs):" +:+ nl +:+
  "    i = wp.tid()" +:+ nl +:+
  "    outputs.b[i] = inputs.a[i] * 3.0" +:+ nl.
Definition undecorated_code : string :=
  "def compute(inputs: Inputs, outputs: Outputs):" +:+ nl +:+
  "    pass" +:+ nl.
Definition broken_code : string := "def compute(:" +:+ nl.
Definition shadowing_code : string :=
  "@wp.struct" +:+ nl +:+
  "class Inputs:" +:+ nl +:+
  "    z: wp.array(dtype=wp.float32)" +:+ nl +:+
  good_code.

Definition struct_of (members : Annotations) : option StructClass :=
  Some {| cls_annotations := match members with [] => None | _ => Some members end |}.

Definition module_of (name : string) (member : option ModuleMember)
    (inputs outputs : Annotations) : Module :=
  {| mod_name := name; mod_compute := member;
     mod_Inputs := struct_of inputs; mod_Outputs := struct_of outputs;
     mod_enable_backward := true |}.

(** The runtime before any module can be imported: the tables only. *)
Definition offline : Runtime :=
  {| ATTR_TO_WARP_TYPE := type_table;
     MAX_DIMENSIONS := 4;
     deserialize_user_attribute_descs := fun _ => Return tt;
     QUIET_DEFAULT := false;
     blake2b_hexdigest := fun _ => "";
     mkstemp_path := fun _ => None;
     write_error := fun _ => None;
     exec_module := fun _ _ => Raise (OtherException "ImportError" "offline");
     wp_get_device := fun _ => None;
     wp_launch := fun _ _ _ outputs => Return outputs |}.

Definition header (attrs : list Attribute) : string :=
  match generate_header_code offline attrs with
  | Return text => text
  | Raise _ => ""
  end.

(** The Python interpreter on the texts of this section. *)
Definition interpreter (source name : string) : outcome Module :=
  let ab := header [attr_a; attr_b] in
  let acd := header [attr_a; attr_c; attr_b; attr_d] in
  if String.eqb source (ab +:+ nl +:+ good_code) then
    Return (module_of name (Some Kernel) [("a", float_array)] [("b", float_array)])
  else if String.eqb source (ab +:+ nl +:+ edited_code) then
    Return (module_of name None [("a", float_array)] [("b", float_array)])
  else if String.eqb source (ab +:+ nl +:+ undecorated_code) then
    Return (module_of name (Some PlainFunction)
              [("a", float_array)] [("b", float_array)])
  else if String.eqb source (acd +:+ nl +:+ good_code) then
    Return (module_of name (Some Kernel) [("a", float_array)]
              [("c", wp_scalar "wp.float32"); ("b", float_array);
               ("d", wp_scalar "wp.int32")])
  else if String.eqb source (ab +:+ nl +:+ shadowing_code) then
    Return (module_of name (Some Kernel) [("z", float_array)] [("b", float_array)])
  else Raise (OtherException "SyntaxError" "invalid syntax").

(** The kernel of [good_code]: [b[i] = a[i] * 2]. *)
Definition run_kernel (m : Module) (dim : list Z) (inputs outputs : Struct)
    : outcome Struct :=
  match inputs !! "a", outputs !! "b" with
  | Some (SArray a), Some (SArray b) =>
      Return (<["b" := SArray
                  {| ptr := ptr b; wp_dtype := wp_dtype b;
                     wp_items :=
                       map (Z.mul 2) (take (length (wp_items b)) (wp_items a)) |}]>
                outputs)
  | _, _ => Raise (OtherException "RuntimeError" "kernel launch failed")
  end.

Definition cpu : Device := {| alias := "cpu"; is_cpu := true; is_cuda := false |}.
Definition cuda0 : Device :=
  {| alias := "cuda:0"; is_cpu := false; is_cuda := true |}.

(** A stand-in for the digest: the theorems hold for any function. *)
Definition digest (code : string) : string :=
  pretty (Z.of_nat (String.length code)).

Definition rt : Runtime :=
  {| ATTR_TO_WARP_TYPE := type_table;
     MAX_DIMENSIONS := 4;
     deserialize_user_attribute_descs := fun _ => Return tt;
     QUIET_DEFAULT := false;
     blake2b_hexdigest := digest;
     mkstemp_path := fun _ => Some "/tmp/tmpq1w2e3.py";
     write_error := fun _ => None;
     exec_module := interpreter;
     wp_get_device := fun name =>
       if String.eqb name "cpu" then Some cpu
       else if String.eqb name "cuda:0" then Some cuda0 else None;
     wp_launch := run_kernel |}.

Definition inputs_of (provider code file : string) (a : RawArray) : Inputs :=
  {| device := "cpu"; codeProvider := provider; codeStr := code;
     codeFile := file; dimCount := 1; dims := [4; 1; 1; 1];
     dyn_inputs := {[ "a" := AttrArray a ]} |}.

Definition world_of (i : Inputs) (attrs : list Attribute) (event : Z)
    (st : InternalState) : World :=
  {| db_inputs := i;
     db_node_attributes := attrs;
     db_state_userAttrDescs := "[]";
     db_state_userAttrsEvent := event;
     db_outputs_size := ∅;
     db_outputs := {[ "b" := AttrArray {| raw_ptr := 4096; raw_items := [] |} ]};
     db_outputs_execOut := DISABLED;
     db_internal_state := st;
     db_log := [];
     db_memory_on_gpu := None;
     timeline_is_stopped := true;
     files := {[ "/scripts/kernel.py" := good_code ]};
     mtimes := {[ "/scripts/kernel.py" := 1700000000 ]};
     wp_config_quiet := false;
     trace := [] |}.

Definition a_1234 : RawArray := {| raw_ptr := 2048; raw_items := [1; 2; 3; 4] |}.

(** A new node with embedded code, and the same node reading its code
    from a file. *)
Definition embedded_node : World :=
  world_of (inputs_of "embedded" good_code "" a_1234)
    [attr_codeStr; attr_a; attr_b] UserAttributesEvent.NONE InternalState_init.
Definition file_node : World :=
  world_of (inputs_of "file" "" "/scripts/kernel.py" a_1234)
    [attr_codeStr; attr_a; attr_b] UserAttributesEvent.NONE InternalState_init.

(** New nodes whose code fails a check of the validator. *)
Definition edited_node : World :=
  world_of (inputs_of "embedded" edited_code "" a_1234)
    [attr_codeStr; attr_a; attr_b] UserAttributesEvent.NONE InternalState_init.
Definition undecorated_node : World :=
  world_of (inputs_of "embedded" undecorated_code "" a_1234)
    [attr_codeStr; attr_a; attr_b] UserAttributesEvent.NONE InternalState_init.
Definition scalar_outputs_node : World :=
  world_of (inputs_of "embedded" good_code "" a_1234)
    [attr_a; attr_c; attr_b; attr_d] UserAttributesEvent.NONE InternalState_init.

(** A new node whose code does not parse. *)
Definition broken_node : World :=
  world_of (inputs_of "embedded" broken_code "" a_1234)
    [attr_codeStr; attr_a; attr_b] UserAttributesEvent.CREATED InternalState_init.

(** A node whose output [b] has an input of the same name and type. *)
Definition resize_annotations : KernelAnnotations :=
  {| ann_inputs := [("b", float_array)]; ann_outputs := [("b", float_array)] |}.
Definition resize_node : World :=
  world_of
    {| device := "cpu"; codeProvider := "embedded"; codeStr := good_code;
       codeFile := ""; dimCount := 3; dims := [1; 2; 3; 1];
       dyn_inputs :=
         {[ "b" := AttrArray {| raw_ptr := 512; raw_items := [7; 8; 9; 10; 11] |} ]} |}
    [attr_a; attr_b] UserAttributesEvent.NONE InternalState_init.
Definition plain_annotations : KernelAnnotations :=
  {| ann_inputs := [("a", float_array)]; ann_outputs := [("b", float_array)] |}.
Definition plain_module : Module :=
  module_of "warp-kernelnode-270" (Some Kernel)
    [("a", float_array)] [("b", float_array)].

(** The next invocation of a node, with new input values. *)
Definition with_inputs (i : Inputs) (w : World) : World :=
  {| db_inputs := i; db_node_attributes := db_node_attributes w;
     db_state_userAttrDescs := db_state_userAttrDescs w;
     db_state_userAttrsEvent := db_state_userAttrsEvent w;
     db_outputs_size := db_outputs_size w; db_outputs := db_outputs w;
     db_outputs_execOut := db_outputs_execOut w;
     db_internal_state := db_internal_state w; db_log := db_log w;
     db_memory_on_gpu := db_memory_on_gpu w;
     timeline_is_stopped := timeline_is_stopped w; files := files w;
     mtimes := mtimes w; wp_config_quiet := wp_config_quiet w;
     trace := trace w |}.

(** The world an invocation leaves. *)
Definition after (w : World) : World := snd (OgnKernel_compute rt w).

(** The node after a first good invocation, when the user then edits
    the code so that it no longer defines [compute]. *)
Definition stale_node : World :=
  with_inputs (inputs_of "embedded" edited_code "" a_1234) (after embedded_node).


End Demo.

(** The number of compilations and of launches a trace records. *)
Definition compilations (t : list Event) : nat :=
  length (filter (fun ev => ev = EvInitialize) t).
Definition is_launch (ev : Event) : bool :=
  match ev with EvLaunch _ => true | _ => false end.
Definition launches (t : list Event) : nat :=
  length (filter (fun ev => is_launch ev = true) t).

(** ** Notions the statements use *)

(** A computation leaves an observation of the world as it was, however
    it ends. *)
Definition unchanged {A B} (obs : World -> B) (m : PyM A) : Prop :=
  forall w r w', m w = (r, w') -> obs w' = obs w.

(** The stored compiled unit: the module and its annotations. *)
Definition compiled_unit (w : World) : option Module * option KernelAnnotations :=
  (kernel_module (db_internal_state w), kernel_annotations (db_internal_state w)).

(** What binding and dispatch leave behind: the sizes and values of the
    output attributes and the launches recorded. *)
Definition dispatch_effects (w : World)
    : gmap string Z * gmap string AttrValue * list Event :=
  (db_outputs_size w, db_outputs w, filter (fun ev => is_launch ev = true) (trace w)).

(** The event tag carries the flag [removed]. *)
Definition removed_flag_set (event : Z) : Prop :=
  Z.land UserAttributesEvent.REMOVED event <> 0.

(** Every field of the snapshot equals the current invocation parameter:
    the dimension count, the code-source mode, the code text, the file
    path and, in file mode, the modification time of the file. *)
Definition snapshot_unchanged (self : InternalState) (db : World) : Prop :=
  _dim_count self = Some (dimCount (db_inputs db))
  /\ _code_provider self = Some (codeProvider (db_inputs db))
  /\ _code_str self = Some (codeStr (db_inputs db))
  /\ _code_file self = Some (codeFile (db_inputs db))
  /\ (codeProvider (db_inputs db) = "file" ->
      exists t, mtimes db !! codeFile (db_inputs db) = Some t
                /\ _code_file_timestamp self = Some t).

(** The product of the extents of the iteration space. *)
Definition product (dims : list Z) : Z := fold_right Z.mul 1 dims.

(** The allocation rule in the words of the specification: the length of
    the input of the same name when it has an equal annotation, the
    product of the extents otherwise. *)
Definition allocation_rule (input_annotations : Annotations)
    (input_values : gmap string AttrValue) (dims : list Z)
    (name : string) (annotation : Annotation) : Z :=
  match dict_get input_annotations name, input_values !! name with
  | Some ref_annotation, Some (AttrArray a) =>
      if bool_decide (ref_annotation = annotation)
      then Z.of_nat (length (raw_items a))
      else product dims
  | _, _ => product dims
  end.


(** The dynamic attributes of the node. *)
Definition dynamic_attributes (db : World) : list Attribute :=
  filter (fun x => is_dynamic x = true) (db_node_attributes db).


(** The lines a direction contributes to the generated header: one per
    attribute of that direction, in the order of the attributes. *)
Definition member_lines (rt : Runtime) (attrs : list Attribute)
    (port_type : AttributePortType) : list string :=
  map (fun a => member_line
                  (base_name (get_name a),
                   default "" (ATTR_TO_WARP_TYPE rt (get_type_name a))))
      (filter (fun a => get_port_type a = port_type) attrs).

(** The full text an invocation would compile: the header of the dynamic
    attributes, a line break, the user code. *)
Definition invocation_text (rt : Runtime) (w : World) : outcome string :=
  match generate_header_code rt (dynamic_attributes w) with
  | Raise e => Raise e
  | Return header_code =>
      match fst (get_user_code w) with
      | Raise e => Raise e
      | Return user_code => Return (full_code header_code user_code)
      end
  end.

(** The snapshot of the state holds the current values of the attributes
    [initialize] caches. *)
Definition snapshot_current (w : World) : Prop :=
  _dim_count (db_internal_state w) = Some (dimCount (db_inputs w))
  /\ _code_provider (db_internal_state w) = Some (codeProvider (db_inputs w))
  /\ _code_str (db_internal_state w) = Some (codeStr (db_inputs w))
  /\ _code_file (db_internal_state w) = Some (codeFile (db_inputs w)).

(** A valid state holds a compiled unit. *)
Definition unit_present_when_valid (w : World) : Prop :=
  is_valid (db_internal_state w) = true ->
  kernel_module (db_internal_state w) <> None
  /\ kernel_annotations (db_internal_state w) <> None.

(** A node that reads its code from a file in place, the timeline
    stopped, with the timestamp of its state as [__init__] left it. *)
Definition watches_file (w : World) : Prop :=
  _code_file_timestamp (db_internal_state w) = None
  /\ codeProvider (db_inputs w) = "file"
  /\ timeline_is_stopped w = true
  /\ is_Some (mtimes w !! codeFile (db_inputs w)).

(** Whether an invocation is about to recompile. *)
Definition stale (w : World) : outcome bool :=
  needs_initialization (db_internal_state w) w (timeline_is_stopped w).



(** ** The other entry points of the node *)

(** [OgnKernel.internal_state()]. *)
Definition OgnKernel_internal_state : InternalState := InternalState_init.

(** [OgnKernel.initialize(graph_context, node)], on the metadata of the
    attribute [inputs:device] of the node, a map from metadata key to
    text; [allowed_tokens] is the key [og.MetadataKeys.ALLOWED_TOKENS].
    The attribute is looked up first. *)
Definition OgnKernel_initialize (allowed_tokens : string)
    (attrs : list Attribute) (metadata : gmap string string)
    : outcome (gmap string string) :=
  match find (fun a => String.eqb (get_name a) "inputs:device") attrs with
  | None =>
      Raise (OtherException "OmniGraphError" "no attribute 'inputs:device'")
  | Some _ =>
      match metadata !! allowed_tokens with
      | None => Return (<[allowed_tokens := join "," ["cpu"; "cuda:0"]]> metadata)
      | Some _ => Return metadata
      end
  end.

(** The shape [compute] launches the kernel with: as many extents as the
    dimension count clamped between 1 and [MAX_DIMENSIONS], each the
    attribute [dim1], [dim2], ... clamped to 0 from below. *)
Definition launch_dim_count (rt : Runtime) (i : Inputs) : nat :=
  Z.to_nat (Z.min (Z.max (dimCount i) 1) (MAX_DIMENSIONS rt)).
Definition launch_dims (rt : Runtime) (i : Inputs) : list Z :=
  map (fun d => Z.max d 0) (take (launch_dim_count rt i) (dims i)).

(** The launches a trace records, in order. *)
Definition launched (t : list Event) : list Event :=
  filter (fun ev => is_launch ev = true) t.

(** A string without the separator of attribute names. *)
Fixpoint colon_free (s : string) : bool :=
  match s with
  | EmptyString => true
  | String c s' => negb (Ascii.eqb c ":") && colon_free s'
  end.

(** The attribute value a member of an output struct is written back as. *)
Definition written_back (value : StructValue) : AttrValue :=
  match value with
  | SArray a => AttrArray {| raw_ptr := ptr a; raw_items := wp_items a |}
  | SValue v => v
  end.

(** The calls of the loader a trace records. *)
Definition is_load (ev : Event) : bool :=
  match ev with EvLoad _ => true | _ => false end.
Definition loads (t : list Event) : nat :=
  length (filter (fun ev => is_load ev = true) t).

(** The stored compiled unit is one that passed the validation of
    [initialize]: the module and the annotations are stored together, the
    module has a kernel [compute] and its backward pass disabled, the
    annotations are those of its two structs, and every output member is an
    array. *)
Definition well_formed_unit (w : World) : Prop :=
  match compiled_unit w with
  | (None, None) => True
  | (Some m, Some a) =>
      mod_compute m = Some Kernel
      /\ mod_enable_backward m = false
      /\ (exists inputs_cls outputs_cls,
            mod_Inputs m = Some inputs_cls
            /\ mod_Outputs m = Some outputs_cls
            /\ a = {| ann_inputs := get_annotations inputs_cls;
                      ann_outputs := get_annotations outputs_cls |})
      /\ (forall name annotation,
            (name, annotation) ∈ ann_outputs a ->
            isinstance_wp_array annotation = true)
  | _ => False
  end.

(** * Properties *)

(** The concrete node runs: the first invocation compiles once, launches
    over four items and doubles the input. *)
Example demo_first_call :
  let w := Demo.after Demo.embedded_node in
  db_outputs w !! "b" = Some (AttrArray {| raw_ptr := 4096; raw_items := [2; 4; 6; 8] |})
  /\ is_valid (db_internal_state w) = true
  /\ db_log w = []
  /\ db_outputs_execOut w = ENABLED
  /\ trace w = [EvInitialize; EvLoad "warp-kernelnode-270"; EvLaunch [4]].
Proof. vm_compute. auto. Qed.

(** ** Reasoning about [Py] computations *)

Ltac py_unfold :=
  unfold Py.bind, Py.ret, Py.raise, Py.lift, Py.get, Py.modify,
    Py.try_finally, Py.try_except_else in *.

Section Unchanged.
Context {B : Type} (obs : World -> B).

Lemma unchanged_ret {A} (a : A) : unchanged obs (ret a).
Proof. intros w r w' H. inversion H. reflexivity. Qed.

Lemma unchanged_raise {A} (e : exn) : unchanged obs (@raise World A e).
Proof. intros w r w' H. inversion H. reflexivity. Qed.

Lemma unchanged_lift {A} (o : outcome A) : unchanged obs (lift o).
Proof. intros w r w' H. inversion H. reflexivity. Qed.

Lemma unchanged_get : unchanged obs get.
Proof. intros w r w' H. inversion H. reflexivity. Qed.

Lemma unchanged_modify (f : World -> World) :
  (forall w, obs (f w) = obs w) -> unchanged obs (modify f).
Proof. intros Hf w r w' H. inversion H. apply Hf. Qed.

Lemma unchanged_bind {A C} (m : PyM A) (k : A -> PyM C) :
  unchanged obs m -> (forall a, unchanged obs (k a)) -> unchanged obs (bind m k).
Proof.
  intros Hm Hk w r w' H. unfold bind in H.
  destruct (m w) as [[a | e] w1] eqn:E.
  - rewrite (Hk a _ _ _ H). exact (Hm _ _ _ E).
  - inversion H; subst. exact (Hm _ _ _ E).
Qed.

Lemma unchanged_for_each {A} (xs : list A) (body : A -> PyM unit) :
  (forall x, unchanged obs (body x)) -> unchanged obs (for_each xs body).
Proof.
  intros Hb. induction xs as [| x xs IH]; simpl.
  - apply unchanged_ret.
  - apply unchanged_bind; [apply Hb | intros _; exact IH].
Qed.

Lemma unchanged_try_finally {A} (body : PyM A) (fin : PyM unit) :
  unchanged obs body -> unchanged obs fin -> unchanged obs (try_finally body fin).
Proof.
  intros Hb Hf w r w' H. unfold try_finally in H.
  destruct (body w) as [r1 w1] eqn:E1.
  destruct (fin w1) as [[[] | e] w2] eqn:E2; inversion H; subst;
    rewrite (Hf _ _ _ E2); exact (Hb _ _ _ E1).
Qed.

Lemma unchanged_try_except_else {A C} (body : PyM A)
    (handler : exn -> PyM C) (orelse : A -> PyM C) :
  unchanged obs body -> (forall e, unchanged obs (handler e)) ->
  (forall a, unchanged obs (orelse a)) ->
  unchanged obs (try_except_else body handler orelse).
Proof.
  intros Hb Hh Ho w r w' H. unfold try_except_else in H.
  destruct (body w) as [[a | e] w1] eqn:E.
  - rewrite (Ho _ _ _ _ H). exact (Hb _ _ _ E).
  - rewrite (Hh _ _ _ _ H). exact (Hb _ _ _ E).
Qed.
End Unchanged.

(** One step of a proof that a computation leaves an observation alone:
    a combinator, a case split on what the code branches on, or a lemma
    already in the context. *)
Ltac unchanged_step :=
  match goal with
  | H : unchanged ?obs ?m |- unchanged ?obs ?m => exact H
  | H : forall x, unchanged ?obs _ |- unchanged ?obs _ => apply H
  | |- unchanged _ (Py.bind _ _) => apply unchanged_bind; [| intros ?]
  | |- unchanged _ (Py.ret _) => apply unchanged_ret
  | |- unchanged _ (Py.raise _) => apply unchanged_raise
  | |- unchanged _ (Py.lift _) => apply unchanged_lift
  | |- unchanged _ Py.get => apply unchanged_get
  | |- unchanged _ (Py.modify _) =>
      apply unchanged_modify; intros ?; reflexivity
  | |- unchanged _ (Py.for_each _ _) => apply unchanged_for_each; intros ?
  | |- unchanged _ (Py.try_finally _ _) => apply unchanged_try_finally
  | |- unchanged _ (Py.try_except_else _ _ _) =>
      apply unchanged_try_except_else; [| intros ? | intros ?]
  | |- unchanged _ (log_error _) => unfold log_error
  | |- unchanged _ (record _) => unfold record
  | |- unchanged _ (match ?x with _ => _ end) => destruct x
  end.
Ltac unchanged_tac := repeat unchanged_step.

(** ** The loader *)

(** The result and the final world of [load_code_as_module]. *)
Lemma load_code_as_module_spec rt code name w :
  load_code_as_module rt code name w =
  match mkstemp_path rt (files w) with
  | None => (Raise (OSError "mkstemp"), set_trace (trace w ++ [EvLoad name]) w)
  | Some file_path =>
      (match write_error rt code with
       | Some e => Raise e
       | None => exec_module rt code name
       end,
       set_files (delete file_path (files w))
         (set_trace (trace w ++ [EvLoad name]) w))
  end.
Proof.
  unfold load_code_as_module, mkstemp, write_file, import_file, os_remove, record.
  py_unfold. simpl.
  destruct (mkstemp_path rt (files w)) as [file_path |]; [| reflexivity].
  simpl. destruct (write_error rt code) as [e |]; simpl.
  - rewrite lookup_insert_eq. simpl. rewrite delete_insert_eq. reflexivity.
  - rewrite lookup_insert_eq. simpl.
    destruct (exec_module rt code name) as [m | e]; simpl;
      rewrite lookup_insert_eq; simpl; rewrite !delete_insert_eq; reflexivity.
Qed.

(** C7: on every exit of [load_code_as_module] -- the normal return, a
    failed write, a failed import -- the temporary file made by [mkstemp]
    is gone when the function returns; when [mkstemp] itself fails no file
    was made.  The result is the error of the write, or else what the
    import of the code gives. *)
Theorem load_code_as_module_removes_artifact :
  forall (rt : Runtime) (code name : string) (w : World),
    match mkstemp_path rt (files w) with
    | None =>
        load_code_as_module rt code name w
        = (Raise (OSError "mkstemp"), set_trace (trace w ++ [EvLoad name]) w)
    | Some file_path =>
        exists w',
          load_code_as_module rt code name w
          = (match write_error rt code with
             | Some e => Raise e
             | None => exec_module rt code name
             end, w')
          /\ files w' !! file_path = None
          /\ files w' = delete file_path (files w)
    end.
Proof.
  intros rt code name w. rewrite load_code_as_module_spec.
  destruct (mkstemp_path rt (files w)) as [file_path |]; [| reflexivity].
  eexists. split; [reflexivity |]. simpl.
  split; [apply lookup_delete_eq | reflexivity].
Qed.

(** ** The staleness tracker *)

Lemma created_and_none_are_not_removals :
  ~ removed_flag_set UserAttributesEvent.CREATED
  /\ ~ removed_flag_set UserAttributesEvent.NONE.
Proof. unfold removed_flag_set. split; intros H; apply H; reflexivity. Qed.

(** With a valid state whose snapshot matches, the flag [removed] alone
    decides. *)
Lemma needs_initialization_valid_unchanged self db check :
  is_valid self = true ->
  kernel_module self <> None ->
  kernel_annotations self <> None ->
  snapshot_unchanged self db ->
  needs_initialization self db check =
    if negb (Z.eqb (Z.land UserAttributesEvent.REMOVED (db_state_userAttrsEvent db)) 0)
    then Return true
    else if bool_decide (codeProvider (db_inputs db) = "embedded") then Return false
    else if bool_decide (codeProvider (db_inputs db) = "file") then Return false
    else Raise (AssertionError
                  ("Unexpected code provider '" +:+ codeProvider (db_inputs db) +:+ "'.")).
Proof.
  intros Hv Hm Ha (Hdim & Hprov & Hstr & Hfile & Htime).
  unfold needs_initialization. rewrite Hv.
  rewrite (bool_decide_eq_false_2 _ Hm), (bool_decide_eq_false_2 _ Ha). simpl.
  destruct (negb _); [reflexivity |].
  rewrite Hdim, Hprov, Hstr, Hfile.
  repeat case_bool_decide; simplify_eq; simpl; try reflexivity; try congruence.
  destruct check; [| reflexivity].
  destruct Htime as (t & Hm1 & Ht); [assumption |].
  unfold getmtime. rewrite Hm1, Ht.
  rewrite bool_decide_eq_true_2 by reflexivity. reflexivity.
Qed.

(** C4: from a valid state holding its compiled unit and annotations,
    with every snapshot field unchanged, an event tag with the flag
    [removed] makes [needs_initialization] ask for a recompilation, and a
    tag without it -- [added] alone, or [none] -- does not: the answer is
    never [True], and it is [False] in the embedded and file modes. *)
Theorem removal_alone_forces_recompilation :
  forall (self : InternalState) (db : World) (check_file_modified_time : bool),
    is_valid self = true ->
    kernel_module self <> None ->
    kernel_annotations self <> None ->
    snapshot_unchanged self db ->
    (removed_flag_set (db_state_userAttrsEvent db) ->
     needs_initialization self db check_file_modified_time = Return true)
    /\ (db_state_userAttrsEvent db = UserAttributesEvent.CREATED
        \/ db_state_userAttrsEvent db = UserAttributesEvent.NONE ->
        needs_initialization self db check_file_modified_time <> Return true
        /\ (codeProvider (db_inputs db) = "embedded"
            \/ codeProvider (db_inputs db) = "file" ->
            needs_initialization self db check_file_modified_time = Return false)).
Proof.
  intros self db check Hv Hm Ha Hs.
  rewrite (needs_initialization_valid_unchanged self db check Hv Hm Ha Hs).
  split.
  - intros Hr. unfold removed_flag_set in Hr.
    apply Z.eqb_neq in Hr. rewrite Hr. reflexivity.
  - intros Hev.
    assert (Z.land UserAttributesEvent.REMOVED (db_state_userAttrsEvent db) = 0) as H0
      by (destruct Hev as [-> | ->]; reflexivity).
    rewrite H0. simpl. split.
    + repeat case_bool_decide; discriminate.
    + intros [He | Hf].
      * rewrite bool_decide_eq_true_2 by assumption. reflexivity.
      * repeat case_bool_decide; congruence.
Qed.

Lemma removal_alone_forces_recompilation_witness :
  let db := Demo.after Demo.embedded_node in
  let st := db_internal_state db in
  needs_initialization st (set_userAttrsEvent UserAttributesEvent.REMOVED db) true
  = Return true
  /\ needs_initialization st (set_userAttrsEvent UserAttributesEvent.CREATED db) true
     = Return false
  /\ needs_initialization st (set_userAttrsEvent UserAttributesEvent.NONE db) true
     = Return false.
Proof.
  assert (forall ev,
    snapshot_unchanged (db_internal_state (Demo.after Demo.embedded_node))
      (set_userAttrsEvent ev (Demo.after Demo.embedded_node))) as Hs.
  { intros ev. repeat split; try reflexivity. vm_compute. intros H. discriminate H. }
  assert (is_valid (db_internal_state (Demo.after Demo.embedded_node)) = true)
    as Hv by reflexivity.
  assert (kernel_module (db_internal_state (Demo.after Demo.embedded_node)) <> None)
    as Hm by (vm_compute; discriminate).
  assert (kernel_annotations (db_internal_state (Demo.after Demo.embedded_node)) <> None)
    as Ha by (vm_compute; discriminate).
  split; [| split].
  - apply (removal_alone_forces_recompilation _ _ true Hv Hm Ha
             (Hs UserAttributesEvent.REMOVED)).
    vm_compute. discriminate.
  - apply (removal_alone_forces_recompilation _ _ true Hv Hm Ha
             (Hs UserAttributesEvent.CREATED)).
    + left. reflexivity.
    + left. reflexivity.
  - apply (removal_alone_forces_recompilation _ _ true Hv Hm Ha
             (Hs UserAttributesEvent.NONE)).
    + right. reflexivity.
    + left. reflexivity.
Defined.

(** ** Compilation and validation *)

Lemma initialize_after_compile rt w attrs m w1 :
  compile_kernel_module rt w = (Return (attrs, m), w1) ->
  initialize rt w = validate_and_store attrs m w1.
Proof. intros H. unfold initialize, bind. rewrite H. reflexivity. Qed.

Lemma initialize_compile_raises rt w e w1 :
  compile_kernel_module rt w = (Raise e, w1) ->
  initialize rt w = (Raise e, w1).
Proof. intros H. unfold initialize, bind. rewrite H. reflexivity. Qed.

(** What [compile_kernel_module] leaves alone: every observation that
    ignores the files, the snapshot and the recording of an event other
    than a launch. *)
Lemma load_code_as_module_unchanged {B} (obs : World -> B) rt code name :
  (forall ev w, is_launch ev = false -> obs (set_trace (trace w ++ [ev]) w) = obs w) ->
  (forall f w, obs (set_files f w) = obs w) ->
  unchanged obs (load_code_as_module rt code name).
Proof.
  intros Ht Hf.
  unfold load_code_as_module, mkstemp, write_file, import_file, os_remove, record.
  repeat first
    [ unchanged_step
    | apply unchanged_modify; intros ?;
      first [apply Ht; reflexivity | apply Hf] ].
Qed.

Lemma compile_kernel_module_unchanged {B} (obs : World -> B) rt :
  (forall ev w, is_launch ev = false -> obs (set_trace (trace w ++ [ev]) w) = obs w) ->
  (forall f w, obs (set_files f w) = obs w) ->
  (forall w, obs (set_internal_state
                    (cache_attribute_values (db_internal_state w) (db_inputs w)) w)
             = obs w) ->
  unchanged obs (compile_kernel_module rt).
Proof.
  intros Ht Hf Hs.
  unfold compile_kernel_module, get_user_code, record.
  repeat first
    [ apply load_code_as_module_unchanged; assumption
    | unchanged_step
    | apply unchanged_modify; intros ?;
      first [apply Ht; reflexivity | apply Hf | apply Hs] ].
Qed.

Lemma dispatch_effects_record ev w :
  is_launch ev = false ->
  dispatch_effects (set_trace (trace w ++ [ev]) w) = dispatch_effects w.
Proof.
  intros Hev. unfold dispatch_effects. simpl.
  rewrite filter_app. simpl.
  rewrite (filter_cons_False _ ev []) by (rewrite Hev; discriminate).
  rewrite filter_nil, app_nil_r. reflexivity.
Qed.


Lemma invalid_output_attrs_spec (outputs : Annotations) (name : string) :
  name ∈ invalid_output_attrs outputs
  <-> exists ann, (name, ann) ∈ outputs /\ isinstance_wp_array ann = false.
Proof.
  unfold invalid_output_attrs, keys. rewrite list_elem_of_fmap. split.
  - intros ([k ann] & -> & Hin). apply list_elem_of_filter in Hin as [Hs Hin].
    exists ann. split; assumption.
  - intros (ann & Hin & Hs). exists (name, ann). split; [reflexivity |].
    apply list_elem_of_filter. split; assumption.
Qed.

(** C8: once the module is loaded, [initialize] checks in this order and
    stops at the first failure: a module without [compute] is refused with
    the one message of the missing entry point, whatever else it holds; a
    [compute] that is not a kernel is refused with the message asking for
    the decorator; then, the members matching the attributes, the output
    members that are not arrays are refused together, in one message that
    lists every one of them; and a module passing all checks is stored. *)
Theorem validation_checks_in_order :
  forall (rt : Runtime) (w w1 : World) (attrs : list Attribute) (m : Module),
    compile_kernel_module rt w = (Return (attrs, m), w1) ->
    (mod_compute m = None ->
     initialize rt w = (Return false, set_log (db_log w1 ++ [MSG_NO_COMPUTE]) w1))
    /\ (mod_compute m = Some PlainFunction ->
        initialize rt w = (Return false, set_log (db_log w1 ++ [MSG_NOT_A_KERNEL]) w1))
    /\ (forall ci co,
          mod_compute m = Some Kernel ->
          mod_Inputs m = Some ci -> mod_Outputs m = Some co ->
          let a := {| ann_inputs := get_annotations ci;
                      ann_outputs := get_annotations co |} in
          let invalid_attrs := invalid_output_attrs (ann_outputs a) in
          annotations_match_attributes attrs a = true ->
          (forall name, name ∈ invalid_attrs
             <-> exists ann, (name, ann) ∈ ann_outputs a
                             /\ isinstance_wp_array ann = false)
          /\ (invalid_attrs <> [] ->
              initialize rt w
              = (Return false,
                 set_log (db_log w1 ++ [MSG_INVALID_OUTPUTS invalid_attrs]) w1))
          /\ (invalid_attrs = [] ->
              initialize rt w
              = (Return true,
                 set_internal_state
                   (store_public_members (db_internal_state w1)
                      (disable_backward m) a) w1))).
Proof.
  intros rt w w1 attrs m Hc.
  rewrite (initialize_after_compile _ _ _ _ _ Hc).
  unfold validate_and_store. split; [| split].
  - intros ->. reflexivity.
  - intros ->. reflexivity.
  - intros ci co Hk Hi Ho. cbv zeta. intros Hmatch.
    rewrite Hk, Hi, Ho. py_unfold. simpl.
    rewrite Hmatch. simpl.
    split; [apply invalid_output_attrs_spec | split].
    + intros Hne. rewrite bool_decide_eq_false_2 by assumption. reflexivity.
    + intros He. rewrite bool_decide_eq_true_2 by assumption. reflexivity.
Qed.




(** [evaluated_as H t]: the equation [H] of the closed term [t] with
    its value. *)
Ltac evaluated_as H t :=
  let r := eval vm_compute in t in
  assert (t = r) as H by (vm_compute; reflexivity).
Ltac compiled_as H w := evaluated_as H (compile_kernel_module Demo.rt w).

Lemma validation_checks_in_order_witness :
  (fst (initialize Demo.rt Demo.edited_node) = Return false
   /\ db_log (snd (initialize Demo.rt Demo.edited_node)) = [MSG_NO_COMPUTE])
  /\ (fst (initialize Demo.rt Demo.undecorated_node) = Return false
      /\ db_log (snd (initialize Demo.rt Demo.undecorated_node)) = [MSG_NOT_A_KERNEL])
  /\ (fst (initialize Demo.rt Demo.scalar_outputs_node) = Return false
      /\ db_log (snd (initialize Demo.rt Demo.scalar_outputs_node))
         = [MSG_INVALID_OUTPUTS ["c"; "d"]]).
Proof.
  split; [| split].
  - compiled_as Hc Demo.edited_node.
    rewrite (proj1 (validation_checks_in_order _ _ _ _ _ Hc) eq_refl).
    split; reflexivity.
  - compiled_as Hc Demo.undecorated_node.
    rewrite (proj1 (proj2 (validation_checks_in_order _ _ _ _ _ Hc)) eq_refl).
    split; reflexivity.
  - compiled_as Hc Demo.scalar_outputs_node.
    edestruct (proj2 (proj2 (validation_checks_in_order _ _ _ _ _ Hc)))
      as (_ & Hinvalid & _);
      [reflexivity | reflexivity | reflexivity | vm_compute; reflexivity |].
    rewrite Hinvalid; [split; reflexivity | vm_compute; discriminate].
Defined.


(** ** Binding *)

Lemma dict_get_elem_of {V} (d : list (string * V)) name v :
  NoDup (keys d) -> (dict_get d name = Some v <-> (name, v) ∈ d).
Proof.
  induction d as [| [k x] d IH]; simpl; intros Hnd.
  - split; [discriminate | intros H; inversion H].
  - apply NoDup_cons in Hnd as [Hk Hnd].
    destruct (String.eqb_spec k name) as [-> | Hne].
    + split.
      * intros [= ->]. left.
      * intros Hin. apply elem_of_cons in Hin as [[= ->] | Hin]; [reflexivity |].
        exfalso. apply Hk. unfold keys. apply list_elem_of_fmap.
        exists (name, v). split; [reflexivity | exact Hin].
    + rewrite (IH Hnd). split.
      * intros Hin. right. exact Hin.
      * intros Hin. apply elem_of_cons in Hin as [[= -> ->] | Hin];
          [contradiction | exact Hin].
Qed.

Lemma dict_get_None {V} (d : list (string * V)) name :
  dict_get d name = None <-> name ∉ keys d.
Proof.
  induction d as [| [k x] d IH]; simpl.
  - split; [intros _ H; inversion H | reflexivity].
  - destruct (String.eqb_spec k name) as [-> | Hne].
    + split; [discriminate | intros H; exfalso; apply H; left].
    + rewrite IH. simpl. rewrite not_elem_of_cons. intuition congruence.
Qed.

Lemma reduce_mul_product dims size :
  reduce_mul dims = Return size -> size = product dims.
Proof.
  destruct dims as [| d rest]; simpl; [discriminate |].
  intros [= <-]. revert d. induction rest as [| x rest IH]; intros d; simpl.
  - lia.
  - rewrite IH. simpl. lia.
Qed.

(** The first loop of [get_kernel_args] writes nothing and binds every
    declared input member to the value of the attribute of its name, an
    array annotation to the [wp.array] wrapping that value. *)
Lemma bind_inputs_spec device items :
  forall inputs0 w r w',
    bind_inputs device items inputs0 w = (r, w') ->
    w' = w
    /\ forall inputs,
         r = Return inputs -> NoDup (keys items) ->
         (forall name ann,
            (name, ann) ∈ items ->
            exists value,
              dyn_inputs (db_inputs w) !! name = Some value
              /\ (isinstance_wp_array ann = true ->
                  exists a dtype,
                    value = AttrArray a
                    /\ inputs !! name
                       = Some (SArray {| ptr := raw_ptr a; wp_dtype := dtype;
                                         wp_items := raw_items a |}))
              /\ (isinstance_wp_array ann = false ->
                  inputs !! name = Some (SValue value)))
         /\ (forall name, name ∉ keys items -> inputs !! name = inputs0 !! name).
Proof.
  induction items as [| [n ann] rest IH]; intros inputs0 w r w' H.
  - inversion H; subst. split; [reflexivity |].
    intros inputs [= <-] _. split; [| reflexivity].
    intros name ann Hin. inversion Hin.
  - simpl in H. unfold bind at 1, get in H.
    destruct (dyn_inputs (db_inputs w) !! n) as [value |] eqn:Hv;
      [| inversion H; subst; split; [reflexivity | intros ? [=]]].
    unfold bind at 1 in H.
    set (bound := (if isinstance_wp_array ann
                   then match cast_array_to_warp_type value ann device with
                        | Return a => ret (SArray a)
                        | Raise e => raise e
                        end
                   else ret (SValue value)) : PyM StructValue) in H.
    assert (forall sv w1, bound w = (Return sv, w1) ->
              w1 = w
              /\ (isinstance_wp_array ann = true ->
                  exists a dtype,
                    value = AttrArray a
                    /\ sv = SArray {| ptr := raw_ptr a; wp_dtype := dtype;
                                       wp_items := raw_items a |})
              /\ (isinstance_wp_array ann = false -> sv = SValue value)) as Hb.
    { intros sv w1. unfold bound.
      destruct ann as [dtype ndim | ty]; simpl.
      - unfold cast_array_to_warp_type, wrap_array. simpl.
        destruct (is_cpu device), (is_cuda device), value as [v | a]; simpl;
          intros [= <- <-]; (split; [reflexivity |]);
          (split; [intros _; eexists _, _; split; reflexivity | discriminate]).
      - intros [= <- <-]. split; [reflexivity |].
        split; [discriminate | reflexivity]. }
    assert (forall e w1, bound w = (Raise e, w1) -> w1 = w) as Hbe.
    { intros e w1. unfold bound.
      destruct (isinstance_wp_array ann); [| discriminate].
      destruct (cast_array_to_warp_type value ann device);
        intros [= <- <-]; reflexivity. }
    destruct (bound w) as [[sv | e] w1] eqn:Hbw.
    + destruct (Hb sv w1 eq_refl) as (-> & Harr & Hsc).
      apply IH in H as [-> Hrest]. split; [reflexivity |].
      intros inputs -> Hnd. simpl in Hnd.
      apply NoDup_cons in Hnd as [Hn Hnd].
      destruct (Hrest inputs eq_refl Hnd) as [Hin Hout]. split.
      * intros name ann' Hmem. apply elem_of_cons in Hmem as [[= -> ->] | Hmem].
        -- exists value. split; [exact Hv |].
           rewrite (Hout n Hn), lookup_insert_eq. split.
           ++ intros Ha. destruct (Harr Ha) as (a & dtype & -> & ->). eauto.
           ++ intros Ha. rewrite (Hsc Ha). reflexivity.
        -- apply Hin. exact Hmem.
      * intros name Hname. simpl in Hname. apply not_elem_of_cons in Hname as [Hne Hname].
        rewrite (Hout name Hname). apply lookup_insert_ne. congruence.
    + inversion H; subst. rewrite (Hbe e w' eq_refl). split; [reflexivity |].
      intros inputs [=].
Qed.

Lemma bind_Return_inv {A B} (m : PyM A) (k : A -> PyM B) w b w' :
  bind m k w = (Return b, w') ->
  exists a w1, m w = (Return a, w1) /\ k a w1 = (Return b, w').
Proof.
  unfold bind. destruct (m w) as [[a | e] w1]; [eauto | discriminate].
Qed.

Lemma lift_Return_inv {A} (o : outcome A) (w : World) a w' :
  lift o w = (Return a, w') -> o = Return a /\ w' = w.
Proof. unfold lift. intros [= -> ->]. split; reflexivity. Qed.

Lemma set_output_size_unchanged {B} (obs : World -> B) name size :
  (forall s v w, obs (set_outputs s v w) = obs w) ->
  unchanged obs (set_output_size name size).
Proof.
  intros Ho. unfold set_output_size.
  repeat first [unchanged_step | apply unchanged_modify; intros ?; apply Ho].
Qed.

Lemma bind_inputs_unchanged {B} (obs : World -> B) device items inputs :
  unchanged obs (bind_inputs device items inputs).
Proof.
  intros w r w' H. apply bind_inputs_spec in H as [-> _]. reflexivity.
Qed.

Lemma bind_outputs_unchanged {B} (obs : World -> B) device in_anns inputs dims items :
  (forall s v w, obs (set_outputs s v w) = obs w) ->
  forall outputs, unchanged obs (bind_outputs device in_anns inputs dims items outputs).
Proof.
  intros Ho. induction items as [| [n ann] rest IH]; intros outputs; simpl.
  - apply unchanged_ret.
  - repeat first
      [ apply set_output_size_unchanged; assumption
      | apply IH
      | unchanged_step ].
Qed.

Lemma get_kernel_args_unchanged {B} (obs : World -> B) module annotations dims device :
  (forall s v w, obs (set_outputs s v w) = obs w) ->
  unchanged obs (get_kernel_args module annotations dims device).
Proof.
  intros Ho. unfold get_kernel_args.
  repeat first
    [ apply bind_inputs_unchanged
    | apply bind_outputs_unchanged; assumption
    | unchanged_step ].
Qed.

(** The second loop of [get_kernel_args]: every declared output member is
    an array, gets the size [output_size] computes, and its attribute is
    resized to it. *)
Lemma bind_outputs_spec device in_anns inputs dims items :
  forall outputs0 w outputs w',
    bind_outputs device in_anns inputs dims items outputs0 w = (Return outputs, w') ->
    NoDup (keys items) ->
    (forall name ann,
       (name, ann) ∈ items ->
       exists size a',
         isinstance_wp_array ann = true
         /\ output_size in_anns inputs dims name ann = Return size
         /\ db_outputs_size w' !! name = Some size
         /\ db_outputs w' !! name = Some (AttrArray a')
         /\ length (raw_items a') = Z.to_nat size)
    /\ (forall name,
         name ∉ keys items ->
         db_outputs_size w' !! name = db_outputs_size w !! name
         /\ db_outputs w' !! name = db_outputs w !! name).
Proof.
  induction items as [| [n ann] rest IH]; intros outputs0 w outputs w' H Hnd.
  - inversion H; subst. split; [| auto].
    intros name ann Hin. inversion Hin.
  - simpl in H. simpl in Hnd. apply NoDup_cons in Hnd as [Hn Hnd].
    destruct (isinstance_wp_array ann) eqn:Harr; simpl in H; [| discriminate].
    apply bind_Return_inv in H as (size & w0 & Hsz & H).
    apply lift_Return_inv in Hsz as [Hsz ->].
    apply bind_Return_inv in H as ([] & w1 & Hset & H).
    unfold set_output_size, bind, get in Hset.
    destruct (db_outputs w !! n) as [[v | a] |] eqn:Hout; try discriminate.
    inversion Hset; subst w1; clear Hset.
    unfold bind at 1, get in H.
    cbn [db_outputs set_outputs] in H. rewrite lookup_insert_eq in H.
    apply bind_Return_inv in H as (value & w2 & Hcast & H).
    apply lift_Return_inv in Hcast as [_ ->].
    apply IH in H as [Hin Hother]; [| exact Hnd].
    split.
    + intros name ann' Hmem. apply elem_of_cons in Hmem as [[= -> ->] | Hmem].
      * destruct (Hother n Hn) as [Hs Hv].
        cbn [db_outputs db_outputs_size set_outputs] in Hs, Hv.
        rewrite lookup_insert_eq in Hs. rewrite lookup_insert_eq in Hv.
        eexists size, _. repeat (split; [eassumption || reflexivity |]).
        simpl. apply length_resize.
      * apply Hin. exact Hmem.
    + intros name Hname. simpl in Hname.
      apply not_elem_of_cons in Hname as [Hne Hname].
      destruct (Hother name Hname) as [Hs Hv].
      cbn [db_outputs db_outputs_size set_outputs] in Hs, Hv.
      rewrite lookup_insert_ne in Hs by congruence.
      rewrite lookup_insert_ne in Hv by congruence. split; assumption.
Qed.

(** [output_size] computes what the allocation rule says. *)
Lemma output_size_rule in_anns (inputs : Struct) (values : gmap string AttrValue)
    dims name ann size :
  NoDup (keys in_anns) ->
  (forall n a,
     (n, a) ∈ in_anns ->
     exists value,
       values !! n = Some value
       /\ (isinstance_wp_array a = true ->
           exists arr dtype,
             value = AttrArray arr
             /\ inputs !! n
                = Some (SArray {| ptr := raw_ptr arr; wp_dtype := dtype;
                                  wp_items := raw_items arr |}))
       /\ (isinstance_wp_array a = false -> inputs !! n = Some (SValue value))) ->
  isinstance_wp_array ann = true ->
  output_size in_anns inputs dims name ann = Return size ->
  size = allocation_rule in_anns values dims name ann.
Proof.
  intros Hnd Hbound Harr Hsz.
  unfold output_size in Hsz. unfold allocation_rule.
  destruct ann as [dtype ndim | ty]; [| discriminate].
  destruct (dict_get in_anns name) as [[rdtype rndim | rty] |] eqn:Hget.
  - apply (dict_get_elem_of _ _ _ Hnd) in Hget.
    destruct (Hbound _ _ Hget) as (value & Hvalue & Hcase & _).
    destruct (Hcase eq_refl) as (arr & dt & -> & Hin).
    rewrite Hvalue. simpl in Hsz.
    destruct (String.eqb_spec dtype rdtype) as [-> | Hd];
      [destruct (Z.eqb_spec ndim rndim) as [-> | Hn] |]; simpl in Hsz.
    + rewrite bool_decide_eq_true_2 by reflexivity.
      unfold struct_len in Hsz. rewrite Hin in Hsz. simpl in Hsz. congruence.
    + rewrite bool_decide_eq_false_2 by congruence.
      apply reduce_mul_product. exact Hsz.
    + rewrite bool_decide_eq_false_2 by congruence.
      apply reduce_mul_product. exact Hsz.
  - apply reduce_mul_product in Hsz.
    destruct (values !! name) as [[v | arr] |]; try exact Hsz;
      rewrite bool_decide_eq_false_2 by discriminate; exact Hsz.
  - apply reduce_mul_product. exact Hsz.
Qed.

(** C5: when the binding succeeds, every declared output member is
    allocated by the rule: the current length of the input of the same
    name when that input is declared with an equal annotation (element
    type and dimensionality), and the product of the extents otherwise;
    the output attribute is resized to that length.  In particular an
    output without a matching input gets 6 items over the extents
    [1, 2, 3]. *)
Theorem output_allocation_follows_rule :
  forall (module : option Module) (annotations : KernelAnnotations)
         (dims : list Z) (device : Device) (w w' : World)
         (inputs outputs : Struct) (name : string) (annotation : Annotation),
    NoDup (keys (ann_inputs annotations)) ->
    NoDup (keys (ann_outputs annotations)) ->
    get_kernel_args module annotations dims device w
    = (Return (inputs, outputs), w') ->
    (name, annotation) ∈ ann_outputs annotations ->
    let size :=
      allocation_rule (ann_inputs annotations) (dyn_inputs (db_inputs w))
        dims name annotation in
    db_outputs_size w' !! name = Some size
    /\ (exists a, db_outputs w' !! name = Some (AttrArray a)
                  /\ length (raw_items a) = Z.to_nat size)
    /\ (dict_get (ann_inputs annotations) name <> Some annotation ->
        dims = [1; 2; 3] -> size = 6).
Proof.
  intros module annotations dims device w w' inputs outputs name annotation
    Hndi Hndo H Hin size.
  unfold get_kernel_args in H.
  apply bind_Return_inv in H as (inputs0 & w0 & Hnew & H).
  apply lift_Return_inv in Hnew as [_ ->].
  apply bind_Return_inv in H as (inputs1 & w1 & Hbi & H).
  apply bind_inputs_spec in Hbi as [-> Hbi].
  destruct (Hbi inputs1 eq_refl Hndi) as [Hbound _].
  apply bind_Return_inv in H as (outputs0 & w2 & Hnew & H).
  apply lift_Return_inv in Hnew as [_ ->].
  apply bind_Return_inv in H as (outputs1 & w3 & Hbo & H).
  inversion H; subst; clear H.
  destruct (bind_outputs_spec _ _ _ _ _ _ _ _ _ Hbo Hndo) as [Hsizes _].
  destruct (Hsizes name annotation Hin) as (sz & a' & Harr & Hsz & Hs & Hv & Hlen).
  assert (sz = size) as ->
    by (eapply output_size_rule; eassumption).
  split; [exact Hs | split].
  - exists a'. split; assumption.
  - intros Hne ->. subst size. unfold allocation_rule.
    destruct (dict_get (ann_inputs annotations) name) as [ref |]; [| reflexivity].
    destruct (dyn_inputs (db_inputs w) !! name) as [[v | a] |]; try reflexivity.
    rewrite bool_decide_eq_false_2 by congruence. reflexivity.
Qed.

Lemma output_allocation_follows_rule_witness :
  db_outputs_size
    (snd (get_kernel_args (Some Demo.plain_module) Demo.plain_annotations
            [1; 2; 3] Demo.cpu Demo.embedded_node)) !! "b" = Some 6
  /\ db_outputs_size
       (snd (get_kernel_args (Some Demo.plain_module) Demo.resize_annotations
               [1; 2; 3] Demo.cpu Demo.resize_node)) !! "b" = Some 5.
Proof.
  assert (NoDup ["a"]) as Ha by (apply NoDup_singleton).
  assert (NoDup ["b"]) as Hb by (apply NoDup_singleton).
  split.
  - evaluated_as Hr
      (get_kernel_args (Some Demo.plain_module) Demo.plain_annotations
         [1; 2; 3] Demo.cpu Demo.embedded_node).
    assert (("b", Demo.float_array) ∈ ann_outputs Demo.plain_annotations) as Hin
      by left.
    destruct (output_allocation_follows_rule _ Demo.plain_annotations _ _ _ _ _ _
                "b" Demo.float_array Ha Hb Hr Hin) as (Hs & _ & H6).
    rewrite Hr. cbn [snd]. rewrite Hs.
    rewrite H6; [reflexivity | vm_compute; discriminate | reflexivity].
  - evaluated_as Hr
      (get_kernel_args (Some Demo.plain_module) Demo.resize_annotations
         [1; 2; 3] Demo.cpu Demo.resize_node).
    assert (("b", Demo.float_array) ∈ ann_outputs Demo.resize_annotations) as Hin
      by left.
    destruct (output_allocation_follows_rule _ Demo.resize_annotations _ _ _ _ _ _
                "b" Demo.float_array Hb Hb Hr Hin) as (Hs & _ & _).
    rewrite Hr. cbn [snd]. rewrite Hs. vm_compute. reflexivity.
Defined.

(** ** What an invocation leaves alone *)

Lemma check_input_unchanged {B} (obs : World -> B) inputs attr_name :
  unchanged obs (check_input inputs attr_name).
Proof. unfold check_input. unchanged_tac. Qed.

Lemma launch_unchanged {B} (obs : World -> B) rt dims inputs outputs :
  (forall w, obs (set_trace (trace w ++ [EvLaunch dims]) w) = obs w) ->
  unchanged obs (launch rt dims inputs outputs).
Proof.
  intros Ht. unfold launch, record.
  repeat first [unchanged_step | apply unchanged_modify; intros ?; apply Ht].
Qed.

Lemma write_output_attrs_unchanged {B} (obs : World -> B) annotations outputs device :
  (forall s v w, obs (set_outputs s v w) = obs w) ->
  unchanged obs (write_output_attrs annotations outputs device).
Proof.
  intros Ho. unfold write_output_attrs.
  destruct (is_cuda device); [apply unchanged_ret |].
  induction (ann_outputs annotations) as [| [n ann] rest IH]; simpl.
  - apply unchanged_ret.
  - repeat first
      [ exact IH | unchanged_step | apply unchanged_modify; intros ?; apply Ho ].
Qed.

Lemma bind_and_dispatch_unchanged {B} (obs : World -> B) rt device :
  (forall s v w, obs (set_outputs s v w) = obs w) ->
  (forall dims w, obs (set_trace (trace w ++ [EvLaunch dims]) w) = obs w) ->
  unchanged obs (bind_and_dispatch rt device).
Proof.
  intros Ho Ht. unfold bind_and_dispatch.
  repeat first
    [ apply get_kernel_args_unchanged; assumption
    | apply check_input_unchanged
    | apply launch_unchanged; intros; apply Ht
    | apply write_output_attrs_unchanged; assumption
    | unchanged_step ].
Qed.

Lemma validate_and_store_unchanged {B} (obs : World -> B) attrs m :
  (forall l w, obs (set_log l w) = obs w) ->
  (forall st w, obs (set_internal_state st w) = obs w) ->
  unchanged obs (validate_and_store attrs m).
Proof.
  intros Hl Hs. unfold validate_and_store.
  repeat first
    [ unchanged_step
    | apply unchanged_modify; intros ?; first [apply Hl | apply Hs] ].
Qed.

Lemma initialize_unchanged {B} (obs : World -> B) rt :
  (forall l w, obs (set_log l w) = obs w) ->
  (forall st w, obs (set_internal_state st w) = obs w) ->
  (forall t w, obs (set_trace t w) = obs w) ->
  (forall f w, obs (set_files f w) = obs w) ->
  unchanged obs (initialize rt).
Proof.
  intros Hl Hs Ht Hf. unfold initialize.
  apply unchanged_bind.
  - apply compile_kernel_module_unchanged; intros; auto.
  - intros a. apply validate_and_store_unchanged; assumption.
Qed.

(** The inner [compute] writes the internal state, the output
    attributes, the log, the memory location, the files and the trace; an
    observation of anything else is unchanged. *)
Lemma compute_unchanged {B} (obs : World -> B) rt device :
  (forall l w, obs (set_log l w) = obs w) ->
  (forall st w, obs (set_internal_state st w) = obs w) ->
  (forall t w, obs (set_trace t w) = obs w) ->
  (forall f w, obs (set_files f w) = obs w) ->
  (forall s v w, obs (set_outputs s v w) = obs w) ->
  (forall b w, obs (set_memory_on_gpu b w) = obs w) ->
  unchanged obs (compute rt device).
Proof.
  intros Hl Hs Ht Hf Ho Hg. unfold compute.
  repeat first
    [ apply initialize_unchanged; assumption
    | apply bind_and_dispatch_unchanged; [assumption | intros; apply Ht]
    | unchanged_step
    | apply unchanged_modify; intros ?; first [apply Hs | apply Hg] ].
Qed.

Lemma compute_unfold rt device w :
  compute rt device w =
  let w0 := set_memory_on_gpu (is_cuda device) w in
  match needs_initialization (db_internal_state w0) w0 (timeline_is_stopped w0) with
  | Raise e => (Raise e, w0)
  | Return true =>
      match initialize rt w0 with
      | (Return true, w1) =>
          bind_and_dispatch rt device
            (set_internal_state (set_is_valid true (db_internal_state w1)) w1)
      | (Return false, w1) => (Return tt, w1)
      | (Raise e, w1) => (Raise e, w1)
      end
  | Return false => bind_and_dispatch rt device w0
  end.
Proof.
  unfold compute. py_unfold. cbv zeta.
  destruct (needs_initialization _ _ _) as [[] | e]; try reflexivity.
  destruct (initialize rt _) as [[[] | e] w1]; reflexivity.
Qed.

Lemma OgnKernel_compute_unfold rt w device :
  resolve_device rt w = Return device ->
  OgnKernel_compute rt w =
  match compute rt device w with
  | (Return _, w1) =>
      (Return tt,
       set_execOut ENABLED
         (set_userAttrsEvent UserAttributesEvent.NONE
            (set_quiet (QUIET_DEFAULT rt) w1)))
  | (Raise e, w1) =>
      (Return tt,
       set_quiet true
         (set_log (db_log w1 ++ [format_exc e])
            (set_internal_state (set_is_valid false (db_internal_state w1)) w1)))
  end.
Proof.
  intros Hd. unfold OgnKernel_compute, on_exception, on_success, log_error.
  py_unfold. rewrite Hd.
  destruct (compute rt device w) as [[[] | e] w1]; reflexivity.
Qed.

(** ** The node entry point *)

(** C10: once the device is resolved, [OgnKernel.compute] runs the inner
    [compute]; whenever that returns -- after a recompilation that failed
    validation, with a compiled unit without outputs, or after a launch --
    the event tag is reset to [NONE] and [execOut] is set to [ENABLED];
    when an exception escapes it, the entry point returns with both as
    they were before the invocation. *)
Theorem entry_point_effects_follow_inner_outcome :
  forall (rt : Runtime) (w : World) (device : Device),
    resolve_device rt w = Return device ->
    let w0 := set_memory_on_gpu (is_cuda device) w in
    (forall w1,
       compute rt device w = (Return tt, w1) ->
       exists w2,
         OgnKernel_compute rt w = (Return tt, w2)
         /\ db_state_userAttrsEvent w2 = UserAttributesEvent.NONE
         /\ db_outputs_execOut w2 = ENABLED)
    /\ (forall e w1,
          compute rt device w = (Raise e, w1) ->
          exists w2,
            OgnKernel_compute rt w = (Return tt, w2)
            /\ db_state_userAttrsEvent w2 = db_state_userAttrsEvent w
            /\ db_outputs_execOut w2 = db_outputs_execOut w)
    /\ (forall w1,
          needs_initialization (db_internal_state w0) w0 (timeline_is_stopped w0)
          = Return true ->
          initialize rt w0 = (Return false, w1) ->
          compute rt device w = (Return tt, w1))
    /\ (forall annotations,
          needs_initialization (db_internal_state w0) w0 (timeline_is_stopped w0)
          = Return false ->
          kernel_annotations (db_internal_state w) = Some annotations ->
          ann_outputs annotations = [] ->
          compute rt device w = (Return tt, w0)).
Proof.
  intros rt w device Hd w0. split; [| split; [| split]].
  - intros w1 Hc. rewrite (OgnKernel_compute_unfold _ _ _ Hd), Hc.
    eexists. split; [reflexivity |]. split; reflexivity.
  - intros e w1 Hc. rewrite (OgnKernel_compute_unfold _ _ _ Hd), Hc.
    eexists. split; [reflexivity |]. simpl. split.
    + apply (compute_unchanged db_state_userAttrsEvent rt device) in Hc; auto.
    + apply (compute_unchanged db_outputs_execOut rt device) in Hc; auto.
  - intros w1 Hn Hi. rewrite compute_unfold. cbv zeta. fold w0.
    rewrite Hn, Hi. reflexivity.
  - intros annotations Hn Ha He. rewrite compute_unfold. cbv zeta. fold w0.
    rewrite Hn. unfold bind_and_dispatch, state_annotations. py_unfold.
    simpl. rewrite Ha. simpl. rewrite He. reflexivity.
Qed.

Lemma entry_point_effects_follow_inner_outcome_witness :
  (exists w2,
     OgnKernel_compute Demo.rt (set_userAttrsEvent UserAttributesEvent.CREATED
                                  Demo.edited_node) = (Return tt, w2)
     /\ db_state_userAttrsEvent w2 = UserAttributesEvent.NONE
     /\ db_outputs_execOut w2 = ENABLED)
  /\ (exists w2,
        OgnKernel_compute Demo.rt Demo.broken_node = (Return tt, w2)
        /\ db_state_userAttrsEvent w2 = UserAttributesEvent.CREATED
        /\ db_outputs_execOut w2 = DISABLED).
Proof.
  split.
  - evaluated_as Hc
      (compute Demo.rt Demo.cpu
         (set_userAttrsEvent UserAttributesEvent.CREATED Demo.edited_node)).
    exact (proj1 (entry_point_effects_follow_inner_outcome Demo.rt
                    (set_userAttrsEvent UserAttributesEvent.CREATED Demo.edited_node)
                    Demo.cpu eq_refl)
             _ Hc).
  - evaluated_as Hc (compute Demo.rt Demo.cpu Demo.broken_node).
    exact (proj1 (proj2 (entry_point_effects_follow_inner_outcome
                           Demo.rt Demo.broken_node Demo.cpu eq_refl)) _ _ Hc).
Defined.

(** ** A failed recompilation *)

(** An [initialize] that does not return [True] leaves the stored unit,
    the validity flag and the outputs as they were, and launches nothing. *)
Lemma initialize_failure_frame rt w r w1 :
  initialize rt w = (r, w1) ->
  r <> Return true ->
  compiled_unit w1 = compiled_unit w
  /\ is_valid (db_internal_state w1) = is_valid (db_internal_state w)
  /\ dispatch_effects w1 = dispatch_effects w.
Proof.
  intros H Hr.
  pose (obs := fun w => (compiled_unit w, is_valid (db_internal_state w),
                         dispatch_effects w)).
  assert (obs w1 = obs w) as Hobs;
    [| split; [| split];
       [ exact (f_equal (fun x => fst (fst x)) Hobs)
       | exact (f_equal (fun x => snd (fst x)) Hobs)
       | exact (f_equal snd Hobs) ] ].
  assert (unchanged obs (compile_kernel_module rt)) as Hframe.
  { apply compile_kernel_module_unchanged; try reflexivity.
    intros ev w' Hev. unfold obs. rewrite dispatch_effects_record by assumption.
    reflexivity. }
  unfold initialize, bind in H.
  destruct (compile_kernel_module rt w) as [[[attrs m] | e] w0] eqn:Hc;
    apply Hframe in Hc; rewrite <- Hc.
  - simpl in H. unfold validate_and_store in H. py_unfold.
    unfold log_error in H. py_unfold.
    repeat (case_match; simpl in H; simplify_eq); try reflexivity;
      congruence.
  - inversion H; subst. reflexivity.
Qed.




(** ** An empty required input *)







(** ** Consecutive invocations *)

(** Nothing in the node assigns [_code_file_timestamp]: it keeps the
    value [InternalState.__init__] gave it. *)
Lemma timestamp_is_never_assigned rt :
  unchanged (fun w => _code_file_timestamp (db_internal_state w))
    (OgnKernel_compute rt).
Proof.
  unfold OgnKernel_compute, on_exception, on_success, compute, initialize,
    validate_and_store.
  repeat first
    [ apply compile_kernel_module_unchanged; intros; reflexivity
    | apply bind_and_dispatch_unchanged; intros; reflexivity
    | unchanged_step ].
Qed.

(** In file mode, with the timeline stopped and the file in place, a
    state whose timestamp is still [None] always asks for a
    recompilation. *)
Lemma file_mode_is_always_stale self db path t :
  _code_file_timestamp self = None ->
  _code_provider self = Some "file" ->
  _code_file self = Some path ->
  mtimes db !! path = Some t ->
  needs_initialization self db true = Return true.
Proof.
  intros Hts Hp Hf Hm. unfold needs_initialization, getmtime.
  rewrite Hts, Hp, Hf, Hm.
  repeat (case_match; simplify_eq; try reflexivity);
    repeat case_bool_decide; simplify_eq.
Qed.

(** C3 on the concrete node reading its code from a file, the timeline
    stopped: the second of two invocations with the same parameters and no
    attribute event compiles again, where the embedded node does not. *)
Theorem file_node_compiles_twice :
  let w1 := Demo.after Demo.file_node in
  let w2 := Demo.after w1 in
  (db_inputs w1 = db_inputs Demo.file_node
   /\ mtimes w1 = mtimes Demo.file_node
   /\ files w1 = files Demo.file_node
   /\ db_state_userAttrsEvent w1 = UserAttributesEvent.NONE
   /\ db_state_userAttrsEvent Demo.file_node = UserAttributesEvent.NONE)
  /\ compilations (trace w1) = 1%nat
  /\ compilations (trace w2) = 2%nat
  /\ db_log w2 = []
  /\ compilations (trace (Demo.after (Demo.after Demo.embedded_node))) = 1%nat.
Proof. vm_compute. repeat split; reflexivity. Qed.

(** ** The generated text and the identity of the module *)

Lemma setdefault_append_get {A} (params : list (AttributePortType * list A))
    port_type port_type' (item : A) :
  default [] (params_get (setdefault_append params port_type item) port_type')
  = (default [] (params_get params port_type')
     ++ (if decide (port_type' = port_type) then [item] else []))%list.
Proof.
  induction params as [| [k items] rest IH]; simpl.
  - destruct (decide (port_type = port_type')) as [-> | Hne].
    + rewrite decide_True by reflexivity. reflexivity.
    + rewrite decide_False by congruence. reflexivity.
  - destruct (decide (k = port_type)) as [-> | Hk]; simpl.
    + destruct (decide (port_type = port_type')) as [-> | Hne]; simpl.
      * rewrite decide_True by reflexivity. reflexivity.
      * rewrite decide_False by congruence. rewrite app_nil_r. reflexivity.
    + destruct (decide (k = port_type')) as [-> | Hk']; simpl.
      * rewrite decide_False by congruence. rewrite app_nil_r. reflexivity.
      * exact IH.
Qed.

Lemma collect_params_get rt attrs :
  forall params params',
    collect_params rt attrs params = Return params' ->
    forall port_type,
      default [] (params_get params' port_type)
      = (default [] (params_get params port_type)
         ++ map (fun a => (base_name (get_name a),
                           default "" (ATTR_TO_WARP_TYPE rt (get_type_name a))))
                (filter (fun a => get_port_type a = port_type) attrs))%list.
Proof.
  induction attrs as [| a attrs IH]; intros params params' H port_type; simpl in H.
  - injection H as <-. rewrite filter_nil. simpl. rewrite app_nil_r. reflexivity.
  - destruct (ATTR_TO_WARP_TYPE rt (get_type_name a)) as [warp_type |] eqn:Ht;
      [| discriminate].
    rewrite (IH _ _ H port_type), setdefault_append_get, <- app_assoc. f_equal.
    destruct (decide (port_type = get_port_type a)) as [-> | Hne].
    + rewrite filter_cons_True by reflexivity. simpl. rewrite Ht. reflexivity.
    + rewrite filter_cons_False by congruence. reflexivity.
Qed.

Lemma members_get (params : list (AttributePortType * list (string * string)))
    port_type :
  default ""
    (params_get
       (map (fun '(port_type, items) => (port_type, join nl (map member_line items)))
            params) port_type)
  = join nl (map member_line (default [] (params_get params port_type))).
Proof.
  induction params as [| [k items] rest IH]; simpl; [reflexivity |].
  destruct (decide (k = port_type)); [reflexivity | exact IH].
Qed.

(** The header holds, for each direction, the lines of the attributes of
    that direction in their order: it does not depend on how the
    attributes of the two directions interleave. *)
Lemma generate_header_code_by_direction rt attrs header_code :
  generate_header_code rt attrs = Return header_code ->
  header_code
  = HEADER_CODE_TEMPLATE
      (join nl (member_lines rt attrs ATTR_PORT_TYPE_INPUT))
      (join nl (member_lines rt attrs ATTR_PORT_TYPE_OUTPUT)).
Proof.
  unfold generate_header_code.
  destruct (collect_params rt attrs []) as [params | e] eqn:Hc; [| discriminate].
  intros [= <-]. rewrite !members_get.
  rewrite !(collect_params_get _ _ _ _ Hc). simpl.
  unfold member_lines. rewrite !map_map. reflexivity.
Qed.

Lemma get_user_code_reads w :
  get_user_code w = (fst (get_user_code w), w).
Proof.
  unfold get_user_code. py_unfold. repeat case_match; reflexivity.
Qed.

(** [compile_kernel_module] in terms of the text of the invocation. *)
Lemma compile_kernel_module_spec rt w :
  compile_kernel_module rt w =
  let w0 :=
    set_internal_state
      (cache_attribute_values (db_internal_state w) (db_inputs w))
      (set_trace (trace w ++ [EvInitialize]) w) in
  match deserialize_user_attribute_descs rt (db_state_userAttrDescs w) with
  | Raise e => (Raise e, w0)
  | Return _ =>
      match invocation_text rt w with
      | Raise e => (Raise e, w0)
      | Return text =>
          match load_code_as_module rt text (module_name rt text) w0 with
          | (Return m, w') => (Return (dynamic_attributes w, m), w')
          | (Raise e, w') => (Raise e, w')
          end
      end
  end.
Proof.
  unfold compile_kernel_module, invocation_text, record. cbv zeta.
  unfold bind at 1, modify at 1. unfold bind at 1, modify at 1.
  unfold bind at 1, get at 1. cbn [db_state_userAttrDescs set_internal_state set_trace].
  unfold bind at 1, lift at 1.
  destruct (deserialize_user_attribute_descs rt _) as [[] | e]; [| reflexivity].
  unfold bind at 1, lift at 1.
  cbn [db_node_attributes set_internal_state set_trace]. fold (dynamic_attributes w).
  destruct (generate_header_code rt (dynamic_attributes w)) as [header_code | e];
    [| reflexivity].
  unfold bind at 1.
  match goal with
  | |- context [get_user_code ?w0] =>
      assert (get_user_code w0 = (fst (get_user_code w), w0)) as ->
  end.
  { unfold get_user_code. py_unfold. simpl. repeat case_match; reflexivity. }
  destruct (fst (get_user_code w)) as [user_code | e]; [| reflexivity].
  unfold bind at 1.
  destruct (load_code_as_module rt _ _ _) as [[m | e] w']; reflexivity.
Qed.




(** *** How often an invocation compiles *)

Lemma compilations_app t1 t2 :
  compilations (t1 ++ t2) = (compilations t1 + compilations t2)%nat.
Proof. unfold compilations. rewrite filter_app, length_app. reflexivity. Qed.

Lemma stale_set_memory_on_gpu b w :
  needs_initialization (db_internal_state (set_memory_on_gpu b w))
    (set_memory_on_gpu b w) (timeline_is_stopped (set_memory_on_gpu b w))
  = stale w.
Proof. reflexivity. Qed.

(** [initialize] counts as one compilation, caches the current attribute
    values and, when it succeeds, stores a unit. *)
Lemma compilations_snoc t ev :
  compilations (t ++ [ev])
  = (compilations t + if decide (ev = EvInitialize) then 1 else 0)%nat.
Proof.
  rewrite compilations_app. f_equal. unfold compilations.
  destruct (decide (ev = EvInitialize)) as [Hev | Hev].
  - rewrite filter_cons_True by exact Hev. reflexivity.
  - rewrite filter_cons_False by exact Hev. reflexivity.
Qed.

Lemma initialize_effects rt w r w' :
  initialize rt w = (r, w') ->
  compilations (trace w') = S (compilations (trace w))
  /\ snapshot_current w'
  /\ (r = Return true ->
      kernel_module (db_internal_state w') <> None
      /\ kernel_annotations (db_internal_state w') <> None).
Proof.
  intros H. unfold initialize, bind in H.
  rewrite compile_kernel_module_spec in H. cbv zeta in H.
  assert (compilations (trace w ++ [EvInitialize]) = S (compilations (trace w)))
    as Hcount by (rewrite compilations_snoc; simpl; lia).
  assert (forall name,
            compilations ((trace w ++ [EvInitialize]) ++ [EvLoad name])
            = S (compilations (trace w))) as Hload
    by (intros name; rewrite compilations_snoc, Hcount; simpl; lia).
  destruct (deserialize_user_attribute_descs rt _) as [[] | e].
  2: { inversion H; subst. simpl.
       split; [exact Hcount |]. split; [repeat split | discriminate]. }
  destruct (invocation_text rt w) as [text | e].
  2: { inversion H; subst. simpl.
       split; [exact Hcount |]. split; [repeat split | discriminate]. }
  rewrite load_code_as_module_spec in H.
  cbn [files trace set_internal_state set_trace] in H.
  destruct (mkstemp_path rt (files w)) as [file_path |].
  2: { inversion H; subst. simpl.
       split; [apply Hload |]. split; [repeat split | discriminate]. }
  destruct (match write_error rt text with
            | Some e => Raise e
            | None => exec_module rt text (module_name rt text)
            end) as [m | e].
  2: { inversion H; subst. simpl.
       split; [apply Hload |]. split; [repeat split | discriminate]. }
  cbn [fst snd] in H. unfold validate_and_store, log_error in H. py_unfold.
  repeat (case_match; simpl in H; simplify_eq);
    simpl; (split; [apply Hload |]); (split; [repeat split |]);
    first [discriminate | intros _; split; discriminate].
Qed.

(** Binding and dispatch compile nothing and leave the state, the input
    attributes and the event tag alone. *)
Lemma bind_and_dispatch_effects rt device w r w' :
  bind_and_dispatch rt device w = (r, w') ->
  compilations (trace w') = compilations (trace w)
  /\ db_internal_state w' = db_internal_state w
  /\ db_inputs w' = db_inputs w
  /\ db_state_userAttrsEvent w' = db_state_userAttrsEvent w.
Proof.
  intros H.
  pose (obs := fun w => (compilations (trace w), db_internal_state w,
                         db_inputs w, db_state_userAttrsEvent w)).
  assert (obs w' = obs w) as Hobs.
  { apply (bind_and_dispatch_unchanged obs rt device) in H; [exact H | reflexivity |].
    intros dims w0. unfold obs. simpl. rewrite compilations_app. simpl.
    rewrite Nat.add_0_r. reflexivity. }
  unfold obs in Hobs. injection Hobs as H1 H2 H3 H4. auto.
Qed.

Lemma stale_fresh w :
  db_internal_state w = InternalState_init ->
  db_state_userAttrsEvent w = UserAttributesEvent.NONE ->
  stale w = Return true.
Proof.
  intros Hs He. unfold stale, needs_initialization. rewrite Hs, He. reflexivity.
Qed.

Lemma stale_settled_embedded w :
  unit_present_when_valid w ->
  db_state_userAttrsEvent w = UserAttributesEvent.NONE ->
  snapshot_current w ->
  codeProvider (db_inputs w) = "embedded" ->
  stale w = Return false.
Proof.
  intros Hu He (Hd & Hp & Hs & Hf) Hemb.
  unfold stale, needs_initialization. rewrite He, Hd, Hp, Hs, Hemb.
  destruct (is_valid (db_internal_state w)) eqn:Hv.
  - destruct (Hu Hv) as [Hm Ha].
    rewrite (bool_decide_eq_false_2 _ Hm), (bool_decide_eq_false_2 _ Ha). simpl.
    rewrite !bool_decide_eq_true_2 by reflexivity. reflexivity.
  - simpl. rewrite !bool_decide_eq_true_2 by reflexivity. reflexivity.
Qed.

Lemma stale_watches_file w :
  watches_file w -> stale w = Return true.
Proof.
  intros (Hts & Hp & Hstop & [t Hm]).
  unfold stale, needs_initialization, getmtime. rewrite Hts, Hp, Hstop.
  repeat (case_match; simplify_eq; try reflexivity);
    repeat case_bool_decide; simplify_eq.
Qed.

(** The inner [compute] compiles once when the state is stale and not at
    all otherwise; a recompilation leaves the snapshot current; a valid
    state keeps holding a unit. *)
Lemma compute_effects rt device w r w' :
  compute rt device w = (r, w') ->
  compilations (trace w')
  = (compilations (trace w)
     + match stale w with Return true => 1 | _ => 0 end)%nat
  /\ (stale w = Return true -> snapshot_current w')
  /\ (unit_present_when_valid w -> unit_present_when_valid w').
Proof.
  intros H. rewrite compute_unfold in H. cbv zeta in H.
  rewrite stale_set_memory_on_gpu in H.
  destruct (stale w) as [[] | e] eqn:Hstale.
  - destruct (initialize rt _) as [ri w1] eqn:Hi.
    destruct (initialize_effects _ _ _ _ Hi) as (Hcount & Hsnap & Hunit).
    simpl in Hcount.
    destruct ri as [[] | e].
    + apply bind_and_dispatch_effects in H as (Hc & Hs & Hin & _).
      split; [rewrite Hc; simpl; lia |]. split.
      * intros _. unfold snapshot_current. rewrite Hs, Hin. exact Hsnap.
      * intros _ _. rewrite Hs. simpl. apply Hunit. reflexivity.
    + inversion H; subst.
      split; [lia |]. split; [intros _; exact Hsnap |].
      destruct (initialize_failure_frame _ _ _ _ Hi) as (Hu & Hv & _);
        [discriminate |].
      unfold unit_present_when_valid. rewrite Hv.
      unfold compiled_unit in Hu. injection Hu as -> ->. auto.
    + inversion H; subst.
      split; [lia |]. split; [intros _; exact Hsnap |].
      destruct (initialize_failure_frame _ _ _ _ Hi) as (Hu & Hv & _);
        [discriminate |].
      unfold unit_present_when_valid. rewrite Hv.
      unfold compiled_unit in Hu. injection Hu as -> ->. auto.
  - apply bind_and_dispatch_effects in H as (Hc & Hs & _ & _).
    split; [rewrite Hc; simpl; lia |]. split; [discriminate |].
    unfold unit_present_when_valid. rewrite Hs. auto.
  - inversion H; subst. simpl.
    split; [lia |]. split; [discriminate | auto].
Qed.

(** An invocation: as the inner [compute], and the event tag ends as it
    was or reset. *)
Lemma invocation_effects rt w device :
  resolve_device rt w = Return device ->
  let w' := snd (OgnKernel_compute rt w) in
  compilations (trace w')
  = (compilations (trace w)
     + match stale w with Return true => 1 | _ => 0 end)%nat
  /\ (stale w = Return true -> snapshot_current w')
  /\ (unit_present_when_valid w -> unit_present_when_valid w')
  /\ (db_state_userAttrsEvent w = UserAttributesEvent.NONE ->
      db_state_userAttrsEvent w' = UserAttributesEvent.NONE)
  /\ db_inputs w' = db_inputs w
  /\ mtimes w' = mtimes w
  /\ timeline_is_stopped w' = timeline_is_stopped w
  /\ _code_file_timestamp (db_internal_state w')
     = _code_file_timestamp (db_internal_state w).
Proof.
  intros Hd w'.
  assert (_code_file_timestamp (db_internal_state w')
          = _code_file_timestamp (db_internal_state w)) as Hts.
  { unfold w'. destruct (OgnKernel_compute rt w) as [r0 w0] eqn:Ho.
    exact (timestamp_is_never_assigned rt _ _ _ Ho). }
  unfold w' in *. clear w'. rewrite (OgnKernel_compute_unfold _ _ _ Hd) in *.
  destruct (compute rt device w) as [r w1] eqn:Hc.
  destruct (compute_effects _ _ _ _ _ Hc) as (Hcount & Hsnap & Hunit).
  assert (db_inputs w1 = db_inputs w) as Hin
    by (apply (compute_unchanged db_inputs rt device) in Hc; auto).
  assert (mtimes w1 = mtimes w) as Hmt
    by (apply (compute_unchanged mtimes rt device) in Hc; auto).
  assert (timeline_is_stopped w1 = timeline_is_stopped w) as Htl
    by (apply (compute_unchanged timeline_is_stopped rt device) in Hc; auto).
  assert (db_state_userAttrsEvent w1 = db_state_userAttrsEvent w) as Hev
    by (apply (compute_unchanged db_state_userAttrsEvent rt device) in Hc; auto).
  destruct r as [[] | e]; simpl.
  - repeat (split; [first [assumption | auto] |]). exact Hts.
  - split; [exact Hcount |]. split; [exact Hsnap |].
    split; [intros _; discriminate |].
    split; [rewrite Hev; auto |].
    repeat (split; [assumption |]). exact Hts.
Qed.

(** X2: in embedded mode a new node compiles on its first invocation and
    not on the next one with the same parameters and no attribute event. *)
Theorem embedded_mode_compiles_once :
  forall (rt : Runtime) (w : World) (device : Device),
    resolve_device rt w = Return device ->
    db_internal_state w = InternalState_init ->
    codeProvider (db_inputs w) = "embedded" ->
    db_state_userAttrsEvent w = UserAttributesEvent.NONE ->
    let w1 := snd (OgnKernel_compute rt w) in
    let w2 := snd (OgnKernel_compute rt w1) in
    db_inputs w1 = db_inputs w
    /\ db_state_userAttrsEvent w1 = UserAttributesEvent.NONE
    /\ compilations (trace w1) = S (compilations (trace w))
    /\ compilations (trace w2) = compilations (trace w1).
Proof.
  intros rt w device Hd Hinit Hemb Hev w1 w2.
  destruct (invocation_effects rt w device Hd)
    as (Hcount & Hsnap & Hunit & Hev1 & Hin & _).
  fold w1 in Hcount, Hsnap, Hunit, Hev1, Hin.
  rewrite (stale_fresh _ Hinit Hev) in Hcount.
  assert (resolve_device rt w1 = Return device) as Hd1
    by (unfold resolve_device in *; rewrite Hin; exact Hd).
  assert (stale w1 = Return false) as Hstale1.
  { apply stale_settled_embedded.
    - apply Hunit. unfold unit_present_when_valid. rewrite Hinit. discriminate.
    - exact (Hev1 Hev).
    - apply Hsnap. exact (stale_fresh _ Hinit Hev).
    - rewrite Hin. exact Hemb. }
  destruct (invocation_effects rt w1 device Hd1) as (Hcount2 & _).
  fold w2 in Hcount2. rewrite Hstale1 in Hcount2.
  split; [exact Hin |]. split; [exact (Hev1 Hev) |]. split; lia.
Qed.

Lemma embedded_mode_compiles_once_witness :
  compilations (trace (Demo.after Demo.embedded_node)) = 1%nat
  /\ compilations (trace (Demo.after (Demo.after Demo.embedded_node))) = 1%nat
  /\ compilations (trace (Demo.after Demo.edited_node)) = 1%nat
  /\ compilations (trace (Demo.after (Demo.after Demo.edited_node))) = 1%nat.
Proof.
  destruct (embedded_mode_compiles_once Demo.rt Demo.embedded_node Demo.cpu
              eq_refl eq_refl eq_refl eq_refl) as (_ & _ & H1 & H2).
  destruct (embedded_mode_compiles_once Demo.rt Demo.edited_node Demo.cpu
              eq_refl eq_refl eq_refl eq_refl) as (_ & _ & H3 & H4).
  unfold Demo.after. rewrite H2, H1, H4, H3. repeat split; reflexivity.
Defined.

(** In file mode, the timeline stopped and the file in place, every
    invocation compiles, and leaves the node as ready to compile again:
    the timestamp it compares with the file's is never assigned. *)
Theorem file_mode_compiles_on_every_invocation :
  forall (rt : Runtime) (w : World) (device : Device),
    resolve_device rt w = Return device ->
    watches_file w ->
    let w1 := snd (OgnKernel_compute rt w) in
    compilations (trace w1) = S (compilations (trace w))
    /\ watches_file w1
    /\ resolve_device rt w1 = Return device.
Proof.
  intros rt w device Hd Hw w1.
  destruct (invocation_effects rt w device Hd)
    as (Hcount & _ & _ & _ & Hin & Hmt & Htl & Hts).
  fold w1 in Hcount, Hin, Hmt, Htl, Hts.
  rewrite (stale_watches_file _ Hw) in Hcount.
  split; [lia |]. split.
  - destruct Hw as (H1 & H2 & H3 & H4).
    unfold watches_file. rewrite Hts, Hin, Hmt, Htl. auto.
  - unfold resolve_device in *. rewrite Hin. exact Hd.
Qed.

Lemma file_mode_compiles_on_every_invocation_witness :
  compilations (trace (Demo.after Demo.file_node)) = 1%nat
  /\ compilations (trace (Demo.after (Demo.after Demo.file_node))) = 2%nat.
Proof.
  assert (watches_file Demo.file_node) as Hw.
  { repeat split; try reflexivity. exists 1700000000. reflexivity. }
  destruct (file_mode_compiles_on_every_invocation Demo.rt Demo.file_node Demo.cpu
              eq_refl Hw) as (H1 & Hw1 & Hd1).
  destruct (file_mode_compiles_on_every_invocation Demo.rt _ Demo.cpu Hd1 Hw1)
    as (H2 & _ & _).
  unfold Demo.after. rewrite H2, H1. split; reflexivity.
Defined.

(** ** The schema generator *)

Lemma collect_params_supported rt attrs :
  (forall a, a ∈ attrs -> ATTR_TO_WARP_TYPE rt (get_type_name a) <> None) ->
  forall params, exists params', collect_params rt attrs params = Return params'.
Proof.
  induction attrs as [| a attrs IH]; intros Hall params; simpl.
  - eauto.
  - destruct (ATTR_TO_WARP_TYPE rt (get_type_name a)) eqn:Ht.
    + apply IH. intros b Hb. apply Hall. right. exact Hb.
    + exfalso. apply (Hall a); [left | exact Ht].
Qed.

Lemma collect_params_unsupported rt pre a post :
  (forall b, b ∈ pre -> ATTR_TO_WARP_TYPE rt (get_type_name b) <> None) ->
  ATTR_TO_WARP_TYPE rt (get_type_name a) = None ->
  forall params,
    collect_params rt (pre ++ a :: post) params
    = Raise (RuntimeError
               ("Unsupported node attribute type '" +:+ get_type_name a +:+ "'.")).
Proof.
  induction pre as [| b pre IH]; intros Hall Ha params; simpl.
  - rewrite Ha. reflexivity.
  - destruct (ATTR_TO_WARP_TYPE rt (get_type_name b)) eqn:Ht.
    + apply IH; [| exact Ha]. intros c Hc. apply Hall. right. exact Hc.
    + exfalso. apply (Hall b); [left | exact Ht].
Qed.

(** X3: the header of a list of attributes: when every attribute type is in
    the table, the template filled, for each direction, with one line
    [name: type] per attribute of the direction, in the order of the
    list; otherwise the error naming the first type missing from the
    table, and no text. *)
Theorem generate_header_code_contract :
  forall (rt : Runtime) (attrs : list Attribute),
    ((forall a, a ∈ attrs -> ATTR_TO_WARP_TYPE rt (get_type_name a) <> None) ->
     generate_header_code rt attrs
     = Return (HEADER_CODE_TEMPLATE
                 (join nl (member_lines rt attrs ATTR_PORT_TYPE_INPUT))
                 (join nl (member_lines rt attrs ATTR_PORT_TYPE_OUTPUT))))
    /\ (forall pre a post,
          attrs = (pre ++ a :: post)%list ->
          (forall b, b ∈ pre -> ATTR_TO_WARP_TYPE rt (get_type_name b) <> None) ->
          ATTR_TO_WARP_TYPE rt (get_type_name a) = None ->
          generate_header_code rt attrs
          = Raise (RuntimeError
                     ("Unsupported node attribute type '"
                      +:+ get_type_name a +:+ "'."))).
Proof.
  intros rt attrs. split.
  - intros Hall.
    destruct (collect_params_supported rt attrs Hall []) as [params Hc].
    destruct (generate_header_code rt attrs) as [header_code | e] eqn:Hg.
    + rewrite (generate_header_code_by_direction _ _ _ Hg). reflexivity.
    + unfold generate_header_code in Hg. rewrite Hc in Hg. discriminate Hg.
  - intros pre a post -> Hpre Ha. unfold generate_header_code.
    rewrite (collect_params_unsupported _ _ _ _ Hpre Ha). reflexivity.
Qed.

Lemma generate_header_code_contract_witness :
  generate_header_code Demo.rt [Demo.attr_a; Demo.attr_b]
  = generate_header_code Demo.rt [Demo.attr_b; Demo.attr_a]
  /\ generate_header_code Demo.rt [Demo.attr_a; Demo.attr_codeStr; Demo.attr_b]
     = Raise (RuntimeError "Unsupported node attribute type 'string'.").
Proof.
  split.
  - rewrite !(proj1 (generate_header_code_contract Demo.rt _)); [reflexivity | |].
    + intros a Ha. apply elem_of_cons in Ha as [-> | Ha]; [discriminate |].
      apply list_elem_of_singleton in Ha as ->. discriminate.
    + intros a Ha. apply elem_of_cons in Ha as [-> | Ha]; [discriminate |].
      apply list_elem_of_singleton in Ha as ->. discriminate.
  - apply (proj2 (generate_header_code_contract Demo.rt _)
             [Demo.attr_a] Demo.attr_codeStr [Demo.attr_b] eq_refl).
    + intros b Hb. apply list_elem_of_singleton in Hb as ->. discriminate.
    + reflexivity.
Defined.


(** * Further properties of the node *)

(** ** When [needs_initialization] asks for a recompilation *)

(** X4: whatever the validity of the state and the event tag,
    [needs_initialization] returns [True] when the dimension count or the
    code provider differs from the snapshot, when in embedded mode the code
    text differs, and when in file mode the file path differs. *)
Theorem changed_parameter_forces_recompilation :
  forall (self : InternalState) (db : World) (check_file_modified_time : bool),
    _dim_count self <> Some (dimCount (db_inputs db))
    \/ _code_provider self <> Some (codeProvider (db_inputs db))
    \/ (codeProvider (db_inputs db) = "embedded"
        /\ _code_str self <> Some (codeStr (db_inputs db)))
    \/ (codeProvider (db_inputs db) = "file"
        /\ _code_file self <> Some (codeFile (db_inputs db))) ->
    needs_initialization self db check_file_modified_time = Return true.
Proof.
  intros self db check H. unfold needs_initialization.
  destruct (if is_valid self then _ else _); [reflexivity |].
  destruct (decide (_dim_count self = Some (dimCount (db_inputs db)))) as [Hd | Hd].
  2: { rewrite (bool_decide_eq_false_2 _ Hd). reflexivity. }
  rewrite (bool_decide_eq_true_2 _ Hd). simpl.
  destruct (decide (_code_provider self = Some (codeProvider (db_inputs db))))
    as [Hp | Hp].
  2: { rewrite (bool_decide_eq_false_2 _ Hp). reflexivity. }
  rewrite (bool_decide_eq_true_2 _ Hp). simpl.
  destruct H as [H | [H | [[He Hs] | [Hf Hpath]]]]; try contradiction.
  - rewrite Hp, He. rewrite bool_decide_eq_true_2 by reflexivity.
    rewrite (bool_decide_eq_false_2 _ Hs). reflexivity.
  - rewrite Hp, Hf.
    rewrite (bool_decide_eq_false_2 (Some "file" = Some "embedded")) by discriminate.
    rewrite bool_decide_eq_true_2 by reflexivity.
    rewrite (bool_decide_eq_false_2 _ Hpath). reflexivity.
Qed.

Lemma changed_parameter_forces_recompilation_witness :
  needs_initialization (db_internal_state Demo.stale_node) Demo.stale_node false
  = Return true.
Proof.
  apply changed_parameter_forces_recompilation.
  right. right. left. split; [reflexivity | vm_compute; discriminate].
Defined.

(** X5: while the timeline plays ([check_file_modified_time] false), a
    valid node in file mode whose dimension count, provider and file path
    are those of the snapshot is not recompiled unless attributes were
    removed: the modification time of the file is not even read, so the
    answer is the same whether the file changed, or is gone. *)
Theorem playing_timeline_skips_the_file :
  forall (self : InternalState) (db : World),
    is_valid self = true ->
    kernel_module self <> None ->
    kernel_annotations self <> None ->
    ~ removed_flag_set (db_state_userAttrsEvent db) ->
    _dim_count self = Some (dimCount (db_inputs db)) ->
    _code_provider self = Some (codeProvider (db_inputs db)) ->
    _code_file self = Some (codeFile (db_inputs db)) ->
    codeProvider (db_inputs db) = "file" ->
    needs_initialization self db false = Return false.
Proof.
  intros self db Hv Hm Ha Hr Hd Hp Hf Hfile. unfold needs_initialization.
  rewrite Hv, (bool_decide_eq_false_2 _ Hm), (bool_decide_eq_false_2 _ Ha).
  unfold removed_flag_set in Hr. apply dec_stable in Hr.
  rewrite Hr, Hd, Hp, Hf, Hfile. simpl.
  repeat case_bool_decide; simplify_eq; reflexivity.
Qed.

Lemma playing_timeline_skips_the_file_witness :
  needs_initialization (db_internal_state (Demo.after Demo.file_node))
    (Demo.after Demo.file_node) false = Return false
  /\ needs_initialization (db_internal_state (Demo.after Demo.file_node))
       (Demo.after Demo.file_node) true = Return true.
Proof.
  split; [| vm_compute; reflexivity].
  apply playing_timeline_skips_the_file; try reflexivity.
  - vm_compute. discriminate.
  - vm_compute. discriminate.
  - vm_compute. intros H. apply H. reflexivity.
Defined.

(** X6: the state [OgnKernel.internal_state()] hands to a new node asks
    for its initialization on every database, whatever the event tag, the
    code provider and the timeline, and without reading any file time. *)
Theorem new_state_needs_initialization :
  forall (db : World) (check_file_modified_time : bool),
    needs_initialization OgnKernel_internal_state db check_file_modified_time
    = Return true.
Proof.
  intros db check. unfold needs_initialization, OgnKernel_internal_state. simpl.
  destruct (negb _); reflexivity.
Qed.




(** ** A code provider that is neither [embedded] nor [file] *)

Lemma needs_initialization_false_provider self db check :
  needs_initialization self db check = Return false ->
  codeProvider (db_inputs db) = "embedded" \/ codeProvider (db_inputs db) = "file".
Proof.
  unfold needs_initialization. intros H.
  repeat (case_match; simplify_eq; try discriminate);
    repeat case_bool_decide; simplify_eq; simpl in *; try discriminate; auto.
Qed.

Lemma invocation_text_unexpected_provider rt w :
  codeProvider (db_inputs w) <> "embedded" ->
  codeProvider (db_inputs w) <> "file" ->
  exists e, invocation_text rt w = Raise e.
Proof.
  intros He Hf. unfold invocation_text.
  destruct (generate_header_code rt (dynamic_attributes w)); [| eauto].
  unfold get_user_code. py_unfold.
  destruct (String.eqb_spec (codeProvider (db_inputs w)) "embedded");
    [contradiction |].
  destruct (String.eqb_spec (codeProvider (db_inputs w)) "file");
    [contradiction |].
  simpl. eauto.
Qed.

Lemma loads_snoc_initialize t :
  loads (t ++ [EvInitialize]) = loads t.
Proof.
  unfold loads. rewrite filter_app, length_app.
  rewrite (filter_cons_False _ EvInitialize []) by (simpl; discriminate).
  simpl. lia.
Qed.

Lemma launches_snoc_initialize t :
  launches (t ++ [EvInitialize]) = launches t.
Proof.
  unfold launches. rewrite filter_app, length_app.
  rewrite (filter_cons_False _ EvInitialize []) by (simpl; discriminate).
  simpl. lia.
Qed.

(** X8: with a code provider that is neither [embedded] nor [file], an
    invocation never reaches the loader: the inner [compute] raises -- in
    the staleness check or before the module is loaded -- nothing is
    loaded or launched, no file is touched, the stored unit stays, and the
    entry point logs the error, clears the validity flag and does not set
    [execOut]. *)
Theorem unexpected_provider_never_loads :
  forall (rt : Runtime) (w : World) (device : Device),
    resolve_device rt w = Return device ->
    codeProvider (db_inputs w) <> "embedded" ->
    codeProvider (db_inputs w) <> "file" ->
    exists e w1,
      compute rt device w = (Raise e, w1)
      /\ loads (trace w1) = loads (trace w)
      /\ launches (trace w1) = launches (trace w)
      /\ files w1 = files w
      /\ (let w2 := snd (OgnKernel_compute rt w) in
          is_valid (db_internal_state w2) = false
          /\ db_log w2 = (db_log w ++ [format_exc e])%list
          /\ db_outputs_execOut w2 = db_outputs_execOut w
          /\ compiled_unit w2 = compiled_unit w).
Proof.
  intros rt w device Hd He Hf.
  assert (exists e w1,
            compute rt device w = (Raise e, w1)
            /\ loads (trace w1) = loads (trace w)
            /\ launches (trace w1) = launches (trace w)
            /\ files w1 = files w
            /\ db_log w1 = db_log w
            /\ db_outputs_execOut w1 = db_outputs_execOut w
            /\ compiled_unit w1 = compiled_unit w) as (e & w1 & Hc & H).
  { rewrite compute_unfold. cbv zeta. rewrite stale_set_memory_on_gpu.
    destruct (stale w) as [[] | e] eqn:Hs.
    - unfold initialize, bind. rewrite compile_kernel_module_spec. cbv zeta.
      cbn [db_state_userAttrDescs set_memory_on_gpu].
      destruct (invocation_text_unexpected_provider rt
                  (set_memory_on_gpu (is_cuda device) w) He Hf) as [e Ht].
      rewrite Ht.
      destruct (deserialize_user_attribute_descs rt (db_state_userAttrDescs w))
        as [[] | e'];
        eexists _, _; (split; [reflexivity |]);
        cbn [trace set_internal_state set_trace set_memory_on_gpu];
        rewrite loads_snoc_initialize, launches_snoc_initialize;
        repeat split; reflexivity.
    - apply needs_initialization_false_provider in Hs as [Hs | Hs]; contradiction.
    - eexists _, _. split; [reflexivity |]. repeat split; reflexivity. }
  exists e, w1. split; [exact Hc |].
  destruct H as (H1 & H2 & H3 & H4 & H5 & H6).
  repeat (split; [assumption |]).
  cbv zeta. rewrite (OgnKernel_compute_unfold _ _ _ Hd), Hc. cbn [snd].
  split; [reflexivity |]. split; [cbn; rewrite H4; reflexivity |].
  split; [exact H5 | exact H6].
Qed.

Lemma unexpected_provider_never_loads_witness :
  let w := Demo.world_of (Demo.inputs_of "url" Demo.good_code "" Demo.a_1234)
             [Demo.attr_codeStr; Demo.attr_a; Demo.attr_b]
             UserAttributesEvent.NONE InternalState_init in
  trace (Demo.after w) = [EvInitialize]
  /\ trace (Demo.after (Demo.after w)) = [EvInitialize]
  /\ exists e, db_log (Demo.after w) = [format_exc e].
Proof.
  intros w.
  destruct (unexpected_provider_never_loads Demo.rt w Demo.cpu eq_refl
              ltac:(discriminate) ltac:(discriminate))
    as (e & w1 & _ & _ & _ & _ & _ & Hlog & _).
  split; [vm_compute; reflexivity |]. split; [vm_compute; reflexivity |].
  exists e. exact Hlog.
Defined.

(** ** The launch *)

Lemma read_dims_seq i n :
  forall k ds,
    read_dims i (seq k n) = Return ds ->
    ds = map (fun d => Z.max d 0) (take n (drop k (dims i))) /\ length ds = n.
Proof.
  induction n as [| n IH]; intros k ds; simpl.
  - intros [= <-]. split; reflexivity.
  - destruct (dims i !! k) as [d |] eqn:Hd; [| discriminate].
    destruct (read_dims i (seq (S k) n)) as [ds' | e] eqn:Hr; [| discriminate].
    intros [= <-]. destruct (IH _ _ Hr) as [Hds Hlen].
    rewrite (drop_S _ _ _ Hd). simpl. rewrite <- Hds, Hlen.
    split; reflexivity.
Qed.

Lemma launch_trace rt dims inputs outputs w r w' :
  launch rt dims inputs outputs w = (r, w') ->
  trace w' = (trace w ++ [EvLaunch dims])%list.
Proof.
  intros H. unfold launch, record in H. py_unfold. simpl in H.
  repeat case_match; simplify_eq; reflexivity.
Qed.

(** Binding and dispatch launch the kernel at most once, over the shape
    read from the dimension attributes. *)
Lemma bind_and_dispatch_trace rt device w r w' :
  bind_and_dispatch rt device w = (r, w') ->
  trace w' = trace w
  \/ (trace w' = (trace w ++ [EvLaunch (launch_dims rt (db_inputs w))])%list
      /\ length (launch_dims rt (db_inputs w)) = launch_dim_count rt (db_inputs w)).
Proof.
  intros H. unfold bind_and_dispatch in H.
  unfold bind at 1, get at 1 in H. unfold bind at 1, lift at 1 in H.
  destruct (state_annotations w) as [annotations | e];
    [| inversion H; subst; left; reflexivity].
  case_bool_decide; [inversion H; subst; left; reflexivity |].
  cbv zeta in H. unfold bind at 1, lift at 1 in H.
  destruct (read_dims _ _) as [ds | e] eqn:Hdims;
    [| inversion H; subst; left; reflexivity].
  apply read_dims_seq in Hdims as [Hds Hlen]. rewrite drop_0 in Hds.
  fold (launch_dim_count rt (db_inputs w)) in Hds, Hlen.
  fold (launch_dims rt (db_inputs w)) in Hds. subst ds.
  unfold bind at 1 in H.
  destruct (get_kernel_args _ _ _ _ w) as [[[inputs outputs] | e] w1] eqn:Hargs;
    apply (get_kernel_args_unchanged trace) in Hargs; try reflexivity.
  2: { inversion H; subst. left. exact Hargs. }
  unfold bind at 1 in H.
  destruct (for_each _ _ w1) as [[[] | e] w2] eqn:Hloop;
    apply (unchanged_for_each trace) in Hloop;
    try (intros; apply check_input_unchanged).
  2: { inversion H; subst. left. congruence. }
  unfold bind at 1 in H.
  destruct (launch rt _ inputs outputs w2) as [[outputs' | e] w3] eqn:Hl;
    apply launch_trace in Hl.
  - apply (write_output_attrs_unchanged trace) in H; [| reflexivity].
    right. split; [congruence | exact Hlen].
  - inversion H; subst. right. split; [congruence | exact Hlen].
Qed.

Lemma launched_app t1 t2 :
  launched (t1 ++ t2) = (launched t1 ++ launched t2)%list.
Proof. unfold launched. apply filter_app. Qed.

Lemma initialize_launched rt w r w1 :
  initialize rt w = (r, w1) ->
  launched (trace w1) = launched (trace w) /\ db_inputs w1 = db_inputs w.
Proof.
  intros H.
  pose (obs := fun w => (launched (trace w), db_inputs w)).
  assert (obs w1 = obs w) as Hobs.
  { assert (unchanged obs (initialize rt)) as Hframe.
    { unfold initialize. apply unchanged_bind.
      - apply compile_kernel_module_unchanged; try reflexivity.
        intros ev w' Hev. unfold obs. simpl. rewrite launched_app.
        unfold launched at 2.
        rewrite (filter_cons_False _ ev []) by (rewrite Hev; discriminate).
        rewrite filter_nil, app_nil_r. reflexivity.
      - intros a. apply validate_and_store_unchanged; reflexivity. }
    exact (Hframe _ _ _ H). }
  unfold obs in Hobs. injection Hobs as H1 H2. auto.
Qed.

Lemma compute_launched rt device w r w' :
  compute rt device w = (r, w') ->
  launched (trace w') = launched (trace w)
  \/ (launched (trace w')
      = (launched (trace w) ++ [EvLaunch (launch_dims rt (db_inputs w))])%list
      /\ length (launch_dims rt (db_inputs w)) = launch_dim_count rt (db_inputs w)).
Proof.
  intros H. rewrite compute_unfold in H. cbv zeta in H.
  assert (forall w0 r w',
            bind_and_dispatch rt device w0 = (r, w') ->
            launched (trace w0) = launched (trace w) ->
            db_inputs w0 = db_inputs w ->
            launched (trace w') = launched (trace w)
            \/ (launched (trace w')
                = (launched (trace w) ++ [EvLaunch (launch_dims rt (db_inputs w))])%list
                /\ length (launch_dims rt (db_inputs w))
                   = launch_dim_count rt (db_inputs w))) as Hdispatch.
  { intros w0 r0 w0' Hb Ht Hi.
    apply bind_and_dispatch_trace in Hb as [Hb | [Hb Hlen]].
    - left. rewrite Hb. exact Ht.
    - rewrite Hi in Hb, Hlen. right. split; [| exact Hlen].
      rewrite Hb, launched_app, Ht. reflexivity. }
  destruct (needs_initialization _ _ _) as [[] | e].
  - destruct (initialize rt _) as [ri w1] eqn:Hi.
    apply initialize_launched in Hi as [Ht Hin].
    destruct ri as [[] | e].
    + apply Hdispatch in H; [exact H | exact Ht | exact Hin].
    + inversion H; subst. left. exact Ht.
    + inversion H; subst. left. exact Ht.
  - apply Hdispatch in H; [exact H | reflexivity | reflexivity].
  - inversion H; subst. left. reflexivity.
Qed.

Lemma OgnKernel_compute_no_device rt w e :
  resolve_device rt w = Raise e -> OgnKernel_compute rt w = (Raise e, w).
Proof.
  intros Hd. unfold OgnKernel_compute. py_unfold. rewrite Hd. reflexivity.
Qed.

Lemma launch_dims_nonnegative rt i :
  Forall (fun d => 0 <= d) (launch_dims rt i).
Proof.
  unfold launch_dims.
  induction (take (launch_dim_count rt i) (dims i)) as [| d ds IH]; simpl;
    constructor; [lia | exact IH].
Qed.

(** X9: an invocation launches the kernel at most once, and when it does,
    over as many extents as the dimension count clamped between 1 and
    [MAX_DIMENSIONS], each of them the dimension attribute clamped to 0
    from below. *)
Theorem kernel_is_launched_at_most_once :
  forall (rt : Runtime) (w : World),
    let w' := snd (OgnKernel_compute rt w) in
    let shape := launch_dims rt (db_inputs w) in
    launched (trace w') = launched (trace w)
    \/ (launched (trace w') = (launched (trace w) ++ [EvLaunch shape])%list
        /\ Forall (fun d => 0 <= d) shape
        /\ length shape = launch_dim_count rt (db_inputs w)
        /\ (1 <= MAX_DIMENSIONS rt ->
            (1 <= length shape)%nat
            /\ Z.of_nat (length shape) <= MAX_DIMENSIONS rt)).
Proof.
  intros rt w w' shape. unfold w'.
  destruct (resolve_device rt w) as [device | e] eqn:Hd.
  2: { rewrite (OgnKernel_compute_no_device _ _ _ Hd). left. reflexivity. }
  rewrite (OgnKernel_compute_unfold _ _ _ Hd).
  destruct (compute rt device w) as [r w1] eqn:Hc.
  apply compute_launched in Hc.
  assert (launched (trace (snd (match r with
            | Return _ =>
                (Return tt,
                 set_execOut ENABLED
                   (set_userAttrsEvent UserAttributesEvent.NONE
                      (set_quiet (QUIET_DEFAULT rt) w1)))
            | Raise e =>
                (Return tt,
                 set_quiet true
                   (set_log (db_log w1 ++ [format_exc e])
                      (set_internal_state
                         (set_is_valid false (db_internal_state w1)) w1)))
            end))) = launched (trace w1)) as ->
    by (destruct r as [[] | e]; reflexivity).
  destruct Hc as [Hc | [Hc Hlen]]; [left; exact Hc | right].
  split; [exact Hc |]. split; [apply launch_dims_nonnegative |].
  split; [exact Hlen |].
  intros Hmax. fold shape in Hlen. rewrite Hlen. unfold launch_dim_count. lia.
Qed.

Lemma kernel_is_launched_at_most_once_witness :
  launched (trace (Demo.after Demo.embedded_node)) = [EvLaunch [4]]
  /\ launched (trace (Demo.after Demo.edited_node)) = [].
Proof.
  split.
  - destruct (kernel_is_launched_at_most_once Demo.rt Demo.embedded_node)
      as [H | (H & _ & _ & Hmax)].
    + vm_compute in H. discriminate H.
    + destruct (Hmax ltac:(vm_compute; discriminate)) as [_ _]. exact H.
  - vm_compute. reflexivity.
Defined.

(** ** Writing the outputs back *)

Lemma write_outputs_spec items (outputs : Struct) :
  forall w,
    (forall name annotation,
       (name, annotation) ∈ items ->
       isinstance_wp_array annotation = true /\ is_Some (outputs !! name)) ->
    exists w',
      write_outputs items outputs w = (Return tt, w')
      /\ db_outputs_size w' = db_outputs_size w
      /\ (forall name value,
            name ∈ keys items -> outputs !! name = Some value ->
            db_outputs w' !! name = Some (written_back value))
      /\ (forall name,
            name ∉ keys items -> db_outputs w' !! name = db_outputs w !! name).
Proof.
  induction items as [| [n ann] rest IH]; intros w Hall.
  - exists w. split; [reflexivity |]. split; [reflexivity |].
    split; [intros name value Hin; inversion Hin | reflexivity].
  - destruct (Hall n ann) as [Harr [value Hv]]; [left |].
    simpl. rewrite Harr, Hv. simpl. unfold bind at 1, modify at 1.
    destruct (IH (set_outputs (db_outputs_size w)
                    (<[n := written_back value]> (db_outputs w)) w))
      as (w' & Hrun & Hsize & Hin & Hout).
    { intros name annotation Hmem. apply Hall. right. exact Hmem. }
    exists w'. split; [exact Hrun |]. split; [exact Hsize |]. split.
    + intros name value' Hname Hvalue'.
      destruct (decide (name ∈ keys rest)) as [Hr | Hr];
        [apply Hin; assumption |].
      simpl in Hname. apply elem_of_cons in Hname as [-> | Hname];
        [| contradiction].
      rewrite (Hout n Hr). simpl. rewrite lookup_insert_eq. congruence.
    + intros name Hname. simpl in Hname.
      apply not_elem_of_cons in Hname as [Hne Hname].
      rewrite (Hout name Hname). simpl. apply lookup_insert_ne. congruence.
Qed.

(** X10: [write_output_attrs] on a CUDA device writes nothing; on any
    other device, when every declared output member is an array held by
    the output struct, it returns after setting each declared output
    attribute to the value of its member, and leaves the sizes and every
    other output attribute as they were. *)
Theorem write_output_attrs_contract :
  forall (annotations : KernelAnnotations) (outputs : Struct)
         (device : Device) (w : World),
    (is_cuda device = true ->
     write_output_attrs annotations outputs device w = (Return tt, w))
    /\ (is_cuda device = false ->
        (forall name annotation,
           (name, annotation) ∈ ann_outputs annotations ->
           isinstance_wp_array annotation = true /\ is_Some (outputs !! name)) ->
        exists w',
          write_output_attrs annotations outputs device w = (Return tt, w')
          /\ db_outputs_size w' = db_outputs_size w
          /\ (forall name value,
                name ∈ keys (ann_outputs annotations) ->
                outputs !! name = Some value ->
                db_outputs w' !! name = Some (written_back value))
          /\ (forall name,
                name ∉ keys (ann_outputs annotations) ->
                db_outputs w' !! name = db_outputs w !! name)).
Proof.
  intros annotations outputs device w. unfold write_output_attrs. split.
  - intros ->. reflexivity.
  - intros -> Hall. apply write_outputs_spec. exact Hall.
Qed.

Lemma write_output_attrs_contract_witness :
  let b := {| ptr := 4096; wp_dtype := "wp.float32"; wp_items := [2; 4; 6; 8] |} in
  let outputs : Struct := {[ "b" := SArray b ]} in
  write_output_attrs Demo.plain_annotations outputs Demo.cuda0 Demo.embedded_node
  = (Return tt, Demo.embedded_node)
  /\ exists w',
       write_output_attrs Demo.plain_annotations outputs Demo.cpu Demo.embedded_node
       = (Return tt, w')
       /\ db_outputs w' !! "b"
          = Some (AttrArray {| raw_ptr := 4096; raw_items := [2; 4; 6; 8] |}).
Proof.
  intros b outputs. split.
  - apply (write_output_attrs_contract Demo.plain_annotations outputs Demo.cuda0).
    reflexivity.
  - destruct (proj2 (write_output_attrs_contract Demo.plain_annotations outputs
                       Demo.cpu Demo.embedded_node) eq_refl)
      as (w' & Hrun & _ & Hin & _).
    + intros name annotation Hmem.
      apply list_elem_of_singleton in Hmem as [= -> ->].
      split; [reflexivity | exists (SArray b); reflexivity].
    + exists w'. split; [exact Hrun |].
      apply (Hin "b" (SArray b)); [left | reflexivity].
Defined.

(** ** What an invocation leaves as it found it *)






(** ** The life of the compiled unit *)

(** The two ways an invocation treats the stored unit. *)
Lemma invocation_unit_cases (rt : Runtime) (w : World) (device : Device) :
  resolve_device rt w = Return device ->
  let w0 := set_memory_on_gpu (is_cuda device) w in
  let w' := snd (OgnKernel_compute rt w) in
  (stale w = Return true
   /\ exists w1,
        initialize rt w0 = (Return true, w1)
        /\ compiled_unit w' = compiled_unit w1
        /\ kernel_module (db_internal_state w') <> None
        /\ kernel_annotations (db_internal_state w') <> None)
  \/ (compiled_unit w' = compiled_unit w
      /\ (is_valid (db_internal_state w') = true ->
          is_valid (db_internal_state w) = true)).
Proof.
  intros Hd w0 w'. unfold w'.
  rewrite (OgnKernel_compute_unfold _ _ _ Hd), compute_unfold. cbv zeta.
  rewrite stale_set_memory_on_gpu. fold w0.
  destruct (stale w) as [[] | e] eqn:Hs.
  - destruct (initialize rt w0) as [[[] | e] w1] eqn:Hi.
    + left. split; [reflexivity |]. exists w1. split; [reflexivity |].
      destruct (initialize_effects _ _ _ _ Hi) as (_ & _ & Hunit).
      destruct (Hunit eq_refl) as [Hm Ha].
      destruct (bind_and_dispatch rt device _) as [r w2] eqn:Hb.
      apply bind_and_dispatch_effects in Hb as (_ & Hst & _).
      assert (compiled_unit w2 = compiled_unit w1) as Hu
        by (unfold compiled_unit; rewrite Hst; reflexivity).
      unfold compiled_unit in Hu. injection Hu as Hu1 Hu2.
      destruct r as [[] | e]; unfold compiled_unit; cbn;
        rewrite Hu1, Hu2; (split; [reflexivity |]); split; assumption.
    + right. destruct (initialize_failure_frame _ _ _ _ Hi) as (Hu & Hv & _);
        [discriminate |].
      cbn. split; [exact Hu | rewrite Hv; auto].
    + right. destruct (initialize_failure_frame _ _ _ _ Hi) as (Hu & Hv & _);
        [discriminate |].
      cbn. split; [exact Hu | discriminate].
  - right. destruct (bind_and_dispatch rt device w0) as [r w2] eqn:Hb.
    apply bind_and_dispatch_effects in Hb as (_ & Hst & _).
    destruct r as [[] | e]; unfold compiled_unit; cbn; rewrite ?Hst;
      (split; [reflexivity |]); [auto | discriminate].
  - right. cbn. split; [reflexivity | discriminate].
Qed.

(** X12: an invocation replaces the stored compiled unit only by a
    successful recompilation, which stores a module; in every other
    invocation the unit stays what it was and the validity flag is never
    raised, only kept or cleared. *)
Theorem unit_changes_only_by_successful_initialize :
  forall (rt : Runtime) (w : World) (device : Device),
    resolve_device rt w = Return device ->
    let w0 := set_memory_on_gpu (is_cuda device) w in
    let w' := snd (OgnKernel_compute rt w) in
    (stale w = Return true
     /\ exists w1,
          initialize rt w0 = (Return true, w1)
          /\ compiled_unit w' = compiled_unit w1
          /\ kernel_module (db_internal_state w') <> None
          /\ kernel_annotations (db_internal_state w') <> None)
    \/ (compiled_unit w' = compiled_unit w
        /\ (is_valid (db_internal_state w') = true ->
            is_valid (db_internal_state w) = true)).
Proof. intros rt w device Hd. exact (invocation_unit_cases rt w device Hd). Qed.

Lemma unit_changes_only_by_successful_initialize_witness :
  compiled_unit (Demo.after Demo.stale_node) = compiled_unit Demo.stale_node
  /\ kernel_module (db_internal_state (Demo.after Demo.embedded_node)) <> None.
Proof.
  split.
  - destruct (unit_changes_only_by_successful_initialize Demo.rt Demo.stale_node
                Demo.cpu eq_refl) as [(_ & w1 & Hi & _) | [Hu _]].
    + vm_compute in Hi. discriminate Hi.
    + exact Hu.
  - destruct (unit_changes_only_by_successful_initialize Demo.rt Demo.embedded_node
                Demo.cpu eq_refl) as [(_ & w1 & _ & _ & Hm & _) | [Hu _]].
    + exact Hm.
    + vm_compute in Hu. discriminate Hu.
Defined.

Lemma initialize_stores_well_formed rt w w1 :
  initialize rt w = (Return true, w1) -> well_formed_unit w1.
Proof.
  intros H. unfold initialize, bind in H.
  destruct (compile_kernel_module rt w) as [[[attrs m] | e] w0];
    [| discriminate].
  simpl in H. unfold validate_and_store in H. py_unfold.
  destruct (mod_compute m) as [[] |] eqn:Hk; try discriminate.
  destruct (mod_Inputs m) as [ci |] eqn:Hi; simpl in H; [| discriminate].
  destruct (mod_Outputs m) as [co |] eqn:Ho; simpl in H; [| discriminate].
  destruct (annotations_match_attributes _ _); simpl in H; [| discriminate].
  case_bool_decide as Hinvalid; simpl in H; [| discriminate].
  inversion H; subst; clear H.
  unfold well_formed_unit, compiled_unit. cbn.
  split; [exact Hk |]. split; [reflexivity |]. split.
  - exists ci, co. auto.
  - intros name annotation Hin.
    destruct (isinstance_wp_array annotation) eqn:Harr; [reflexivity |].
    assert (name ∈ invalid_output_attrs (get_annotations co)) as Hmem
      by (apply invalid_output_attrs_spec; eauto).
    rewrite Hinvalid in Hmem. inversion Hmem.
Qed.

(** X13: the stored compiled unit is always one that passed the
    validation: a new node stores none, and an invocation keeps a unit
    that is either absent or a module with a kernel [compute], its
    backward pass disabled, stored with the annotations of its own structs,
    all of whose output members are arrays. *)
Theorem stored_unit_stays_well_formed :
  forall (rt : Runtime) (w : World),
    (db_internal_state w = OgnKernel_internal_state -> well_formed_unit w)
    /\ (well_formed_unit w -> well_formed_unit (snd (OgnKernel_compute rt w))).
Proof.
  intros rt w. split.
  - intros Hs. unfold well_formed_unit, compiled_unit. rewrite Hs. exact I.
  - intros Hw.
    destruct (resolve_device rt w) as [device | e] eqn:Hd.
    2: { rewrite (OgnKernel_compute_no_device _ _ _ Hd). exact Hw. }
    destruct (invocation_unit_cases rt w device Hd)
      as [(_ & w1 & Hi & Hu & _) | [Hu _]];
      unfold well_formed_unit; rewrite Hu.
    + exact (initialize_stores_well_formed _ _ _ Hi).
    + exact Hw.
Qed.

Lemma stored_unit_stays_well_formed_witness :
  well_formed_unit (Demo.after Demo.embedded_node)
  /\ well_formed_unit (Demo.after (Demo.after Demo.scalar_outputs_node)).
Proof.
  split.
  - apply (stored_unit_stays_well_formed Demo.rt Demo.embedded_node).
    apply (stored_unit_stays_well_formed Demo.rt Demo.embedded_node).
    reflexivity.
  - apply (stored_unit_stays_well_formed Demo.rt).
    apply (stored_unit_stays_well_formed Demo.rt Demo.scalar_outputs_node).
    apply (stored_unit_stays_well_formed Demo.rt Demo.scalar_outputs_node).
    reflexivity.
Defined.

(** ** An attribute added to a valid node *)

Lemma stale_valid_embedded w :
  is_valid (db_internal_state w) = true ->
  kernel_module (db_internal_state w) <> None ->
  kernel_annotations (db_internal_state w) <> None ->
  ~ removed_flag_set (db_state_userAttrsEvent w) ->
  snapshot_current w ->
  codeProvider (db_inputs w) = "embedded" ->
  stale w = Return false.
Proof.
  intros Hv Hm Ha Hr (Hd & Hp & Hs & Hf) Hemb.
  unfold stale, needs_initialization.
  rewrite Hv, (bool_decide_eq_false_2 _ Hm), (bool_decide_eq_false_2 _ Ha).
  unfold removed_flag_set in Hr. apply dec_stable in Hr.
  rewrite Hr, Hd, Hp, Hs, Hemb. simpl.
  rewrite !bool_decide_eq_true_2 by reflexivity. reflexivity.
Qed.

(** X14: an attribute added to a valid node in embedded mode whose
    snapshot is current is acknowledged without being compiled in: the
    invocation does not recompile and keeps the stored unit, and when it
    ends Valid the event tag is reset and the next invocation with the
    same parameters does not recompile either. *)
Theorem added_attribute_is_acknowledged_not_compiled :
  forall (rt : Runtime) (w : World) (device : Device),
    resolve_device rt w = Return device ->
    is_valid (db_internal_state w) = true ->
    kernel_module (db_internal_state w) <> None ->
    kernel_annotations (db_internal_state w) <> None ->
    snapshot_current w ->
    codeProvider (db_inputs w) = "embedded" ->
    db_state_userAttrsEvent w = UserAttributesEvent.CREATED ->
    let w' := snd (OgnKernel_compute rt w) in
    compilations (trace w') = compilations (trace w)
    /\ compiled_unit w' = compiled_unit w
    /\ (is_valid (db_internal_state w') = true ->
        db_state_userAttrsEvent w' = UserAttributesEvent.NONE
        /\ stale w' = Return false).
Proof.
  intros rt w device Hd Hv Hm Ha Hsnap Hemb Hev w'.
  assert (stale w = Return false) as Hs.
  { apply stale_valid_embedded; try assumption.
    rewrite Hev. apply created_and_none_are_not_removals. }
  unfold w'. rewrite (OgnKernel_compute_unfold _ _ _ Hd), compute_unfold.
  cbv zeta. rewrite stale_set_memory_on_gpu, Hs.
  destruct (bind_and_dispatch rt device _) as [r w2] eqn:Hb.
  apply bind_and_dispatch_effects in Hb as (Hc & Hst & Hin & _).
  cbn in Hc, Hst, Hin.
  destruct r as [[] | e]; unfold compiled_unit; cbn; rewrite Hst.
  - split; [exact Hc |]. split; [reflexivity |]. intros _.
    split; [reflexivity |].
    apply stale_settled_embedded.
    + intros _. cbn. rewrite Hst. auto.
    + reflexivity.
    + unfold snapshot_current. cbn. rewrite Hst, Hin. exact Hsnap.
    + cbn. rewrite Hin. exact Hemb.
  - split; [exact Hc |]. split; [reflexivity | discriminate].
Qed.

Lemma added_attribute_is_acknowledged_not_compiled_witness :
  let w := set_userAttrsEvent UserAttributesEvent.CREATED
             (Demo.after Demo.embedded_node) in
  compilations (trace (Demo.after w)) = 1%nat
  /\ db_state_userAttrsEvent (Demo.after w) = UserAttributesEvent.NONE
  /\ stale (Demo.after w) = Return false.
Proof.
  intros w.
  destruct (added_attribute_is_acknowledged_not_compiled Demo.rt w Demo.cpu)
    as (Hc & _ & Hnext); try reflexivity.
  - vm_compute. discriminate.
  - vm_compute. discriminate.
  - repeat split.
  - destruct Hnext as [He Hs]; [vm_compute; reflexivity |].
    split; [| split; assumption].
    unfold Demo.after in Hc |- *. rewrite Hc. vm_compute. reflexivity.
Defined.

(** ** A node that never got a unit *)

(** X15: a state that is not stale and holds no annotations -- the state
    of a node whose only compilation failed -- makes the inner [compute]
    raise [TypeError] where it subscripts the annotations, before
    anything is bound or launched; the entry point logs it, leaves
    [execOut] and the event tag alone, and the node stays as it was: the
    next invocation with the same parameters is not stale either. *)
Theorem settled_node_without_unit_fails_at_dispatch :
  forall (rt : Runtime) (w : World) (device : Device),
    resolve_device rt w = Return device ->
    stale w = Return false ->
    kernel_annotations (db_internal_state w) = None ->
    exists msg,
      compute rt device w
      = (Raise (TypeError msg), set_memory_on_gpu (is_cuda device) w)
      /\ (let w' := snd (OgnKernel_compute rt w) in
          db_log w' = (db_log w ++ [format_exc (TypeError msg)])%list
          /\ is_valid (db_internal_state w') = false
          /\ trace w' = trace w
          /\ db_outputs w' = db_outputs w
          /\ db_outputs_execOut w' = db_outputs_execOut w
          /\ db_state_userAttrsEvent w' = db_state_userAttrsEvent w
          /\ stale w' = Return false).
Proof.
  intros rt w device Hd Hs Ha.
  assert (is_valid (db_internal_state w) = false) as Hv.
  { destruct (is_valid (db_internal_state w)) eqn:Hv; [| reflexivity].
    unfold stale, needs_initialization in Hs. rewrite Hv, Ha in Hs.
    rewrite (bool_decide_eq_true_2 (None = None)) in Hs by reflexivity.
    rewrite orb_true_r in Hs. discriminate Hs. }
  eexists. split.
  - rewrite compute_unfold. cbv zeta. rewrite stale_set_memory_on_gpu, Hs.
    unfold bind_and_dispatch, state_annotations. py_unfold. cbn.
    rewrite Ha. reflexivity.
  - cbv zeta. rewrite (OgnKernel_compute_unfold _ _ _ Hd).
    rewrite compute_unfold. cbv zeta. rewrite stale_set_memory_on_gpu, Hs.
    unfold bind_and_dispatch, state_annotations. py_unfold. cbn.
    rewrite Ha. cbn.
    repeat (split; [reflexivity |]).
    unfold stale, needs_initialization in *. cbn. rewrite Hv in Hs. exact Hs.
Qed.

Lemma settled_node_without_unit_fails_at_dispatch_witness :
  let w := Demo.after Demo.edited_node in
  db_log w = [MSG_NO_COMPUTE]
  /\ db_outputs_execOut w = ENABLED
  /\ exists msg,
       db_log (Demo.after w) = [MSG_NO_COMPUTE; format_exc (TypeError msg)]
       /\ trace (Demo.after w) = trace w.
Proof.
  intros w.
  destruct (settled_node_without_unit_fails_at_dispatch Demo.rt w Demo.cpu
              eq_refl eq_refl eq_refl) as (msg & _ & Hlog & _ & Ht & _).
  split; [reflexivity |]. split; [reflexivity |].
  exists msg. split; [exact Hlog | exact Ht].
Defined.

(** ** The device *)





(** ** The set-up of a node *)

(** X17: [OgnKernel.initialize] leaves the attribute [inputs:device] with
    allowed tokens: it writes ["cpu,cuda:0"] when none are set, keeps the
    tokens that are, touches no other metadata, and running it again
    changes nothing. *)
Theorem OgnKernel_initialize_populates_tokens_once :
  forall (allowed_tokens : string) (attrs : list Attribute)
         (metadata metadata' : gmap string string),
    OgnKernel_initialize allowed_tokens attrs metadata = Return metadata' ->
    (metadata !! allowed_tokens = None ->
     metadata' !! allowed_tokens = Some "cpu,cuda:0")
    /\ (forall tokens,
          metadata !! allowed_tokens = Some tokens -> metadata' = metadata)
    /\ (forall key, key <> allowed_tokens -> metadata' !! key = metadata !! key)
    /\ OgnKernel_initialize allowed_tokens attrs metadata' = Return metadata'.
Proof.
  intros key attrs metadata metadata' H. unfold OgnKernel_initialize in *.
  destruct (find _ attrs) as [attr |]; [| discriminate].
  destruct (metadata !! key) as [tokens |] eqn:Hm.
  - injection H as <-. split; [discriminate |].
    split; [reflexivity |]. split; [reflexivity |]. rewrite Hm. reflexivity.
  - injection H as <-. split; [intros _; apply lookup_insert_eq |].
    split; [discriminate |].
    split; [intros k Hk; apply lookup_insert_ne; congruence |].
    rewrite lookup_insert_eq. reflexivity.
Qed.

Lemma OgnKernel_initialize_populates_tokens_once_witness :
  let attrs :=
    [Demo.attr_codeStr;
     {| get_name := "inputs:device"; get_type_name := "token";
        get_port_type := ATTR_PORT_TYPE_INPUT; is_dynamic := false;
        is_optional_for_compute := false |}] in
  let metadata : gmap string string := {[ "uiName" := "Device" ]} in
  let metadata' := <["allowedTokens" := "cpu,cuda:0"]> metadata in
  OgnKernel_initialize "allowedTokens" attrs metadata = Return metadata'
  /\ metadata' !! "allowedTokens" = Some "cpu,cuda:0"
  /\ metadata' !! "uiName" = Some "Device"
  /\ OgnKernel_initialize "allowedTokens" attrs metadata' = Return metadata'.
Proof.
  intros attrs metadata metadata'.
  assert (OgnKernel_initialize "allowedTokens" attrs metadata = Return metadata')
    as H by (vm_compute; reflexivity).
  destruct (OgnKernel_initialize_populates_tokens_once _ _ _ _ H)
    as (Hnone & _ & Hother & Hagain).
  split; [exact H |]. split; [apply Hnone; vm_compute; reflexivity |].
  split; [| exact Hagain].
  rewrite Hother by discriminate. vm_compute. reflexivity.
Defined.

(** ** Member names *)

Lemma split_on_nonempty sep s : split_on sep s <> [].
Proof.
  destruct s as [| c s]; simpl; [discriminate |].
  destruct (Ascii.eqb c sep); [discriminate |].
  destruct (split_on sep s); discriminate.
Qed.

Lemma split_on_app sep a b :
  split_on sep (a +:+ String sep b) = (split_on sep a ++ split_on sep b)%list.
Proof.
  induction a as [| c a IH]; simpl.
  - rewrite Ascii.eqb_refl. reflexivity.
  - destruct (Ascii.eqb c sep); [rewrite IH; reflexivity |].
    rewrite IH. pose proof (split_on_nonempty sep a) as Hne.
    destruct (split_on sep a) as [| h t]; [contradiction | reflexivity].
Qed.

Lemma split_on_colon_free name :
  colon_free name = true -> split_on ":" name = [name].
Proof.
  induction name as [| c name IH]; simpl; [reflexivity |].
  intros H. apply andb_true_iff in H as [Hc Hn].
  apply negb_true_iff in Hc. rewrite Hc, (IH Hn). reflexivity.
Qed.

Lemma split_on_parts_colon_free s :
  Forall (fun part => colon_free part = true) (split_on ":" s).
Proof.
  induction s as [| c s IH]; simpl.
  - constructor; [reflexivity | constructor].
  - destruct (Ascii.eqb c ":") eqn:Hc.
    + constructor; [reflexivity | exact IH].
    + pose proof (split_on_nonempty ":" s) as Hne.
      destruct (split_on ":" s) as [| h t]; [contradiction |].
      inversion IH; subst. constructor; [| assumption].
      simpl. rewrite Hc. simpl. assumption.
Qed.

(** X18: the member name of an attribute, [name.split(":")[-1]], is what
    follows the last colon: a name without colon is its own member name,
    a namespace in front of it is dropped whatever it holds, and the
    member name never contains a colon. *)
Theorem base_name_strips_the_namespace :
  forall (namespace name : string),
    colon_free (base_name name) = true
    /\ (colon_free name = true ->
        base_name name = name
        /\ base_name (namespace +:+ ":" +:+ name) = name).
Proof.
  intros namespace name. unfold base_name. split.
  - pose proof (split_on_parts_colon_free name) as Hall.
    induction Hall as [| part parts Hpart Hparts IH]; [reflexivity |].
    destruct parts; [exact Hpart | exact IH].
  - intros Hn. split.
    + rewrite (split_on_colon_free _ Hn). reflexivity.
    + change (namespace +:+ ":" +:+ name) with (namespace +:+ String ":" name).
      rewrite split_on_app, (split_on_colon_free _ Hn). apply last_last.
Qed.

Lemma base_name_strips_the_namespace_witness :
  base_name "inputs:a" = "a"
  /\ base_name "outputs:points:velocity" = "velocity"
  /\ base_name "a" = "a".
Proof.
  split; [| split].
  - apply (base_name_strips_the_namespace "inputs" "a"). reflexivity.
  - apply (base_name_strips_the_namespace "outputs:points" "velocity").
    reflexivity.
  - apply (base_name_strips_the_namespace "" "a"). reflexivity.
Defined.
